(** * pm2-health: the probe evaluator, the event router, the config merger
      and the alert gate of [Health.ts], as a shallow embedding.

    The program is a JavaScript class. Its state (the effective
    configuration, the hold window, the compiled exclusion patterns and
    the history store) is threaded explicitly; the calls it makes to its
    collaborators (logger, console, mail transport, timers) are returned
    as a list of effects in program order. What the mail transport does
    with a message ([Mail.js]) is not part of the model. *)

From Stdlib Require Import Floats ZArith Bool Ascii Uint63.
From stdpp Require Import base option list strings pretty gmap.

Local Open Scope Z_scope.
Set Warnings "-register-all".

(** ** JavaScript values *)

(** The values the program handles: what [JSON.parse] and the PM2 bus
    deliver. Numbers are IEEE binary64, as in the language. Strings are
    sequences of code units below 256. An object is the list of its own
    properties in insertion order. *)
Inductive jsval : Type :=
  | JUndefined
  | JNull
  | JBool (b : bool)
  | JNum (x : float)
  | JStr (s : string)
  | JArr (elems : list jsval)
  | JObj (props : list (string * jsval)).

(** What the language runtime provides and this repository only calls. *)
Class JsEngine : Type := {
  (** [parseFloat] applied to a String *)
  parseFloat : string -> float;
  (** [ToNumber] applied to a String *)
  StringToNumber : string -> float;
  (** [ToString] applied to a Number *)
  NumberToString : float -> string;
  (** compiled regular expressions, [new RegExp(pattern)] on a String
      ([None]: it throws a SyntaxError) and [RegExp.prototype.test] *)
  RegExp : Type;
  RegExp_new : string -> option RegExp;
  RegExp_test : RegExp -> string -> bool;
  (** [JSON.stringify(x, undefined, 4)] *)
  JSON_stringify : jsval -> string;
  (** [path.basename] applied to a String *)
  basename : string -> string;
}.

(** [ToBoolean]: what [if (x)], [!x] and [x && y] test. *)
Definition truthy (v : jsval) : bool :=
  match v with
  | JUndefined | JNull => false
  | JBool b => b
  | JNum x => negb (PrimFloat.eqb x 0 || PrimFloat.is_nan x)
  | JStr s => negb (String.eqb s "")
  | JArr _ | JObj _ => true
  end.

(** [x == null], true of [null] and [undefined] only. *)
Definition nullish (v : jsval) : bool :=
  match v with
  | JUndefined | JNull => true
  | _ => false
  end.

(** [Array.isArray(x)] with the elements it guards. *)
Definition as_array (v : jsval) : option (list jsval) :=
  match v with
  | JArr l => Some l
  | _ => None
  end.

Fixpoint own {A} (k : string) (ps : list (string * A)) : option A :=
  match ps with
  | [] => None
  | (k', v) :: r => if String.eqb k k' then Some v else own k r
  end.

(** [o[k]]: the own property of an object, [undefined] when there is none.
    On [null] and [undefined] the read throws; where the program can meet
    one of them inside a [try] ([fetchConfig]) the model tests for it
    first. Names inherited from [Object.prototype] and the indices and
    [length] of arrays and strings are outside the model: none of them is a
    configuration key, a rule field or an operator of this program. *)
Definition get (o : jsval) (k : string) : jsval :=
  match o with
  | JObj ps => default JUndefined (own k ps)
  | _ => JUndefined
  end.

(** [o[k] = v] on an object: an existing key keeps its place, a new one goes
    last, which is the order [Object.keys] reports. *)
Fixpoint obj_set {A} (k : string) (v : A) (ps : list (string * A)) : list (string * A) :=
  match ps with
  | [] => [(k, v)]
  | (k', v') :: r => if String.eqb k k' then (k, v) :: r else (k', v') :: obj_set k v r
  end.

Section Conversions.
Context `{JsEngine}.

(** [ToString]. An array joins its elements with commas, [null] and
    [undefined] elements printing as nothing. *)
Fixpoint ToString (v : jsval) : string :=
  match v with
  | JUndefined => "undefined"
  | JNull => "null"
  | JBool b => if b then "true" else "false"
  | JNum x => NumberToString x
  | JStr s => s
  | JArr l =>
      (fix join (l : list jsval) : string :=
         match l with
         | [] => ""
         | x :: r =>
             let sx := match x with JUndefined | JNull => "" | _ => ToString x end in
             match r with
             | [] => sx
             | _ :: _ => sx +:+ "," +:+ join r
             end
         end) l
  | JObj _ => "[object Object]"
  end.

(** [Number.parseFloat(v)]: the argument is converted to a String
    first. *)
Definition Number_parseFloat (v : jsval) : float := parseFloat (ToString v).

(** [new RegExp(e)]: an [undefined] pattern is the empty one; any other
    value is converted to a String. *)
Definition new_RegExp (e : jsval) : option RegExp :=
  match e with
  | JUndefined => RegExp_new "(?:)"
  | _ => RegExp_new (ToString e)
  end.

(** [ToPrimitive]: arrays and plain objects have no [valueOf] of their
    own, so they convert through [toString]. *)
Definition ToPrimitive (v : jsval) : jsval :=
  match v with
  | JArr _ | JObj _ => JStr (ToString v)
  | _ => v
  end.

Definition ToNumber (v : jsval) : float :=
  match ToPrimitive v with
  | JUndefined => nan
  | JNull => 0
  | JBool b => if b then 1 else 0
  | JNum x => x
  | JStr s => StringToNumber s
  | JArr _ | JObj _ => nan
  end%float.

(** The abstract relational comparison [IsLessThan]: [None] is its
    [undefined] result, when an operand converts to NaN. *)
Definition IsLessThan (a b : jsval) : option bool :=
  match ToPrimitive a, ToPrimitive b with
  | JStr s, JStr t => Some (String.ltb s t)
  | pa, pb =>
      let na := ToNumber pa in
      let nb := ToNumber pb in
      if PrimFloat.is_nan na || PrimFloat.is_nan nb then None
      else Some (PrimFloat.ltb na nb)
  end.

(** [a < b], [a > b], [a <= b], [a >= b] *)
Definition js_lt (a b : jsval) : bool := default false (IsLessThan a b).
Definition js_gt (a b : jsval) : bool := default false (IsLessThan b a).
Definition js_le (a b : jsval) : bool := default false (negb <$> IsLessThan b a).
Definition js_ge (a b : jsval) : bool := default false (negb <$> IsLessThan a b).

(** [a === b]. Two arrays or objects are equal only when they are the
    same reference; the operands this program compares come from
    different sources (a process list entry, the configuration, the
    history store), so they never are. *)
Definition strict_eq (a b : jsval) : bool :=
  match a, b with
  | JUndefined, JUndefined => true
  | JNull, JNull => true
  | JBool x, JBool y => Bool.eqb x y
  | JNum x, JNum y => PrimFloat.eqb x y
  | JStr s, JStr t => String.eqb s t
  | _, _ => false
  end.

(** [a == b] *)
Definition loose_eq (a b : jsval) : bool :=
  match a, b with
  | (JUndefined | JNull), _ => nullish b
  | _, (JUndefined | JNull) => false
  | (JArr _ | JObj _), (JArr _ | JObj _) => false
  | _, _ =>
      match ToPrimitive a, ToPrimitive b with
      | JStr s, JStr t => String.eqb s t
      | pa, pb => PrimFloat.eqb (ToNumber pa) (ToNumber pb)
      end
  end.

Definition js_ne (a b : jsval) : bool := negb (loose_eq a b).

(** [OP], the operator table of [Health.ts]. *)
Definition OP : list (string * (jsval -> jsval -> bool)) :=
  [ ("<", js_lt);
    (">", js_gt);
    ("=", strict_eq);
    ("<=", js_le);
    (">=", js_ge);
    ("!=", js_ne) ].

End Conversions.

(** ** Collaborators *)

(** The record [testProbes] hands to the history store: [{ v }], with
    [bad: true] added when the threshold test came out truthy. *)
Record HistoryData : Type := {
  data_v : jsval;
  data_bad : bool;
}.

(** Modelled from the spec: [Snapshot.ts] is not among the sources. The
    history store is taken by its contract, "last(processId, metricKey) ->
    previousValue|undefined; push(processId, processName, metricKey,
    keepHistory, {value, bad?}); send() flushes accumulated writes", over
    an explicit store state. *)
Class SnapshotStore : Type := {
  Snapshot : Type;
  last : Snapshot -> jsval -> string -> jsval;
  push : Snapshot -> jsval -> jsval -> string -> bool -> HistoryData -> Snapshot;
  send : Snapshot -> Snapshot;
}.

(** What a [catch] clause of the program can receive. *)
Inductive exn : Type :=
  | FetchError (message : string)
  | JSONSyntaxError (message : string)
  | TypeError (reading : string)
  | RegExpSyntaxError (pattern : jsval)
  | MailError (message : string).

Record Attachment : Type := {
  filename : string;
  path : jsval;
}.

(** The HTML body of a mail, by the values its template interpolates. *)
Inductive Body : Type :=
  | EventBody (app : string) (event : string) (json : string)
  | ExceptionBody (app : string) (json : string)
  | MessageBody (app : string) (json : string)
  | AlertTable (rows : string).

Record Alert : Type := {
  subject : string;
  body : Body;
  attachements : list Attachment;
}.

(** Calls that leave the program, in the order they are made. *)
Inductive effect : Type :=
  | info (msg : string)
  | error (prefix : string) (ex : exn)
  | console_error (msg : string)
  | Fetch_fetch (url : jsval) (basicAuth : option (jsval * jsval))
  | Mail_send (a : Alert)
  | setTimeout (ms : float).

(** A [Date]: its time value is an integral number of milliseconds, or NaN. *)
Inductive Date : Type :=
  | ValidDate (t : Z)
  | InvalidDate.

(** [TimeClip] *)
Definition TimeClip (t : Z) : Date :=
  if Z.abs t <=? 8640000000000000 then ValidDate t else InvalidDate.

(** [a < b] on two dates, [a] a valid one. *)
Definition Date_lt (a : Z) (b : Date) : bool :=
  match b with
  | ValidDate t => a <? t
  | InvalidDate => false
  end.

(** ** Constants of [Health.ts] *)

Definition MERTIC_INTERVAL_S : float := 60%float.
Definition HOLD_PERIOD_M : Z := 30.
Definition LOGS : list string := ["pm_err_log_path"; "pm_out_log_path"].
Definition CONFIG_KEYS : list string :=
  ["events"; "metric"; "exceptions"; "messages"; "messageExcludeExps";
   "appsExcluded"; "metricIntervalS"; "addLogs"].

(** The metrics [testProbes] writes itself. *)
Definition builtin_metrics : list string := ["memory"; "cpu"; "pm2"; "node"].

(** [this._config[key]] *)
Definition cfg_get (c : gmap string jsval) (k : string) : jsval :=
  default JUndefined (c !! k).

(** [Array.prototype.indexOf] *)
Fixpoint indexOf_from (i : Z) (l : list jsval) (x : jsval) : Z :=
  match l with
  | [] => -1
  | y :: r => if strict_eq y x then i else indexOf_from (i + 1) r x
  end.

Definition indexOf (l : list jsval) (x : jsval) : Z := indexOf_from 0 l x.

(** [Object.keys] *)
Definition keys (o : jsval) : list string :=
  match o with
  | JObj ps => ps.*1
  | _ => []
  end.

Definition set_prop (o : jsval) (k : string) (v : jsval) : jsval :=
  match o with
  | JObj ps => JObj (obj_set k v ps)
  | _ => o
  end.

(** [isAppExcluded] *)
Definition isAppExcluded (c : gmap string jsval) (app : jsval) : bool :=
  strict_eq app (JStr "pm2-health")
  || match as_array (cfg_get c "appsExcluded") with
     | Some l => negb (indexOf l app =? -1)
     | None => false
     end.

(** ** The constructor of [Mail.js] *)

Record Mail : Type := {
  mail_config : gmap string jsval;
  _template : string;
}.

Definition default_template : string := "<p><!-- body --></p><p><!-- timeStamp --></p>".

(** [new Mail(config)]: [file] is the text of [Template.html], [None] when
    reading it throws. The result is the message of the [Error] thrown, or
    the object built with what [console.log] printed. *)
Definition Mail_new (c : gmap string jsval) (file : option string)
    : string + Mail * list string :=
  if negb (truthy (cfg_get c "smtp")) then inl "[smtp] not set"
  else if negb (truthy (get (cfg_get c "smtp") "host")) then inl "[smtp.host] not set"
  else if negb (truthy (cfg_get c "smtp")) then inl "[smtp.port] not set"
  else if negb (truthy (cfg_get c "mailTo")) then inl "[mailTo] not set"
  else
    match file with
    | Some text => inr ({| mail_config := c; _template := text |}, [])
    | None =>
        inr ({| mail_config := c; _template := default_template |},
             ["Template.html not found"])
    end.

(** ** The [Health] class *)

Section Health.
Context `{JsEngine} `{SnapshotStore}.

Record Health : Type := {
  _config : gmap string jsval;
  _holdTill : option Date;
  _messageExcludeExps : list RegExp;
  _snapshot : Snapshot;
}.

Definition with_config (h : Health) (c : gmap string jsval) : Health :=
  {| _config := c; _holdTill := _holdTill h;
     _messageExcludeExps := _messageExcludeExps h; _snapshot := _snapshot h |}.

Definition with_exps (h : Health) (rs : list RegExp) : Health :=
  {| _config := _config h; _holdTill := _holdTill h;
     _messageExcludeExps := rs; _snapshot := _snapshot h |}.

Definition with_holdTill (h : Health) (d : option Date) : Health :=
  {| _config := _config h; _holdTill := d;
     _messageExcludeExps := _messageExcludeExps h; _snapshot := _snapshot h |}.

Definition with_snapshot (h : Health) (s : Snapshot) : Health :=
  {| _config := _config h; _holdTill := _holdTill h;
     _messageExcludeExps := _messageExcludeExps h; _snapshot := s |}.

(** The constructor's two defaults (the mail and snapshot collaborators
    it builds are passed in as [s]). *)
Definition Health_new (c : gmap string jsval) (s : Snapshot) : Health :=
  let c1 :=
    if nullish (cfg_get c "metricIntervalS")
    then <["metricIntervalS" := JNum MERTIC_INTERVAL_S]> c else c in
  let c2 :=
    if negb (truthy (cfg_get c1 "metric"))
    then <["metric" := JObj []]> c1 else c1 in
  {| _config := c2; _holdTill := None; _messageExcludeExps := []; _snapshot := s |}.

(** *** Config merger *)

(** [array.map(e => new RegExp(e))]: the first pattern that does not
    compile throws, and nothing is returned. *)
Fixpoint compile_all (l : list jsval) : exn + list RegExp :=
  match l with
  | [] => inr []
  | e :: r =>
      match new_RegExp e with
      | None => inl (RegExpSyntaxError e)
      | Some re =>
          match compile_all r with
          | inl ex => inl ex
          | inr rs => inr (re :: rs)
          end
      end
  end.

(** [configChanged]: the state it leaves, and the exception it throws if
    it does. The list is emptied before the patterns are compiled. *)
Definition configChanged (h : Health) : Health * option exn :=
  let h0 := with_exps h [] in
  match as_array (cfg_get (_config h) "messageExcludeExps") with
  | Some l =>
      match compile_all l with
      | inr rs => (with_exps h0 rs, None)
      | inl ex => (h0, Some ex)
      end
  | None => (h0, None)
  end.

(** One turn of the loop over [CONFIG_KEYS]. *)
Definition apply_key (config : jsval)
    (acc : gmap string jsval * list effect) (key : string)
    : gmap string jsval * list effect :=
  if truthy (get config key)
  then (<[key := get config key]> acc.1,
        acc.2 ++ [info ("applying [" +:+ key +:+ "]")])
  else acc.

Definition apply_keys (config : jsval) (c : gmap string jsval)
    : gmap string jsval * list effect :=
  foldl (apply_key config) (c, []) CONFIG_KEYS.

(** What [await fetch.fetch()] and [JSON.parse(json)] come back with. *)
Inductive fetched : Type :=
  | fetch_rejects (ex : exn)
  | parse_throws (ex : exn)
  | parsed (config : jsval).

Definition fetch_failed : string := "failed to fetch config -> ".

(** [fetchConfig]. Everything runs inside one [try]: reading a property
    of [null] or [undefined] (the [webConfig] field, the parsed payload)
    throws a TypeError there, like the transport, the parser and
    [configChanged]. *)
Definition fetchConfig (h : Health) (r : fetched) : Health * list effect :=
  let webConfig := cfg_get (_config h) "webConfig" in
  if nullish webConfig then (h, [error fetch_failed (TypeError "url")]) else
  let url := get webConfig "url" in
  let auth := get webConfig "auth" in
  let request :=
    [ info ("fetching config from [" +:+ ToString url +:+ "]");
      Fetch_fetch url
        (if truthy auth && truthy (get auth "user")
         then Some (get auth "user", get auth "password") else None) ] in
  match r with
  | fetch_rejects ex | parse_throws ex => (h, request ++ [error fetch_failed ex])
  | parsed config =>
      if nullish config
      then (h, request ++ [error fetch_failed (TypeError "events")])
      else
        let applied := apply_keys config (_config h) in
        match configChanged (with_config h applied.1) with
        | (h', None) => (h', request ++ applied.2)
        | (h', Some ex) => (h', request ++ applied.2 ++ [error fetch_failed ex])
        end
  end.

(** *** Alert gate *)

(** [mail], called at time [t] ([new Date()]); [sent] is how the awaited
    [this._mail.send] ends, [None] for success. *)
Definition mail (h : Health) (t : Z) (a : Alert) (sent : option exn) : list effect :=
  if match _holdTill h with
     | Some till => Date_lt t till
     | None => false
     end
  then []
  else Mail_send a ::
       match sent with
       | None => [info ("mail send: " +:+ subject a)]
       | Some ex => [error "mail failed: " ex]
       end.

(** The [hold] action: [n] is the integer [parseInt(p)] found, [None] when
    [p] is missing or not numeric. The reply text is not modelled. *)
Definition hold (h : Health) (now : Z) (n : option Z) : Health :=
  let t := default HOLD_PERIOD_M n in
  with_holdTill h (Some (TimeClip (now + t * 60000))).

(** The [unhold] action. *)
Definition unhold (h : Health) : Health := with_holdTill h None.

(** *** Event router *)

(** [`${data.process.name}:${data.process.pm_id}`] *)
Definition app_label (process : jsval) : string :=
  ToString (get process "name") +:+ ":" +:+ ToString (get process "pm_id").

(** The [process:event] handler: the alert it passes to [mail], [None]
    where it returns before. *)
Definition on_process_event (h : Health) (data : jsval) : option Alert :=
  let process := get data "process" in
  if truthy (get data "manually") || isAppExcluded (_config h) (get process "name")
  then None else
  if match as_array (cfg_get (_config h) "events") with
     | Some l => indexOf l (get data "event") =? -1
     | None => false
     end
  then None else
  Some {| subject := app_label process +:+ " - " +:+ ToString (get data "event");
          body := EventBody (app_label process) (ToString (get data "event"))
                    (JSON_stringify data);
          attachements :=
            (fun e => {| filename := basename (ToString (get process e));
                         path := get process e |})
            <$> List.filter
                  (fun e => strict_eq (cfg_get (_config h) "addLogs") (JBool true)
                            && truthy (get process e))
                  LOGS |}.

(** The [process:exception] handler. *)
Definition on_process_exception (h : Health) (data : jsval) : option Alert :=
  let process := get data "process" in
  if isAppExcluded (_config h) (get process "name") then None else
  Some {| subject := app_label process +:+ " - exception";
          body := ExceptionBody (app_label process) (JSON_stringify (get data "data"));
          attachements := [] |}.

(** The [process:msg] handler. *)
Definition on_process_msg (h : Health) (data : jsval) : option Alert :=
  let process := get data "process" in
  if isAppExcluded (_config h) (get process "name") then None else
  let json := JSON_stringify (get data "data") in
  if existsb (fun e => RegExp_test e json) (_messageExcludeExps h) then None else
  Some {| subject := app_label process +:+ " - message";
          body := MessageBody (app_label process) json;
          attachements := [] |}.


(** The three channels of the PM2 bus. *)
Inductive channel : Type :=
  | process_event
  | process_exception
  | process_msg.

(** The handlers [go] attaches when the bus is launched: the first always,
    the other two when the configuration of that moment asks for them. *)
Definition attached (launch : Health) (ch : channel) : bool :=
  match ch with
  | process_event => true
  | process_exception => truthy (cfg_get (_config launch) "exceptions")
  | process_msg => truthy (cfg_get (_config launch) "messages")
  end.

(** What an event on channel [ch] leads to, in a program launched in state
    [launch] and now in state [h]. *)
Definition bus_emit (launch h : Health) (ch : channel) (data : jsval) : option Alert :=
  if attached launch ch then
    match ch with
    | process_event => on_process_event h data
    | process_exception => on_process_exception h data
    | process_msg => on_process_msg h data
    end
  else None.

(** *** Probe evaluator *)

(** The metrics of one entry [e] of the process list: its [axm_monitor]
    object (or a fresh one), with memory, cpu and the two version metrics
    written into it. The entries PM2 lists carry a [pm2_env] object; on
    one that did not, reading [axm_monitor] would throw. *)
Definition monit_of (e : jsval) : jsval :=
  let pm2_env := get e "pm2_env" in
  let monit0 := get pm2_env "axm_monitor" in
  let monit1 := if truthy monit0 then monit0 else JObj [] in
  let monit2 :=
    if truthy (get e "monit")
    then set_prop
           (set_prop monit1 "memory"
              (JObj [("value", JNum (ToNumber (get (get e "monit") "memory") / 1048576))]))
           "cpu" (JObj [("value", get (get e "monit") "cpu")])
    else monit1 in
  if truthy pm2_env then
    let monit3 :=
      if truthy (get pm2_env "_pm2_version")
      then set_prop monit2 "pm2"
             (JObj [("value", get pm2_env "_pm2_version"); ("direct", JBool true)])
      else monit2 in
    if truthy (get pm2_env "node_version")
    then set_prop monit3 "node"
           (JObj [("value", get pm2_env "node_version"); ("direct", JBool true)])
    else monit3
  else monit2.

(** The property names every object inherits from [Object.prototype]. *)
Definition Object_prototype : list string :=
  [ "constructor"; "__defineGetter__"; "__defineSetter__"; "hasOwnProperty";
    "__lookupGetter__"; "__lookupSetter__"; "isPrototypeOf"; "propertyIsEnumerable";
    "toString"; "valueOf"; "__proto__"; "toLocaleString" ].

(** The names [Array.prototype], [String.prototype] and [Number.prototype]
    add to them ([Boolean.prototype] adds none), as of ECMAScript 2024; an
    engine of an earlier edition lacks the latest of them. *)
Definition Array_prototype : list string :=
  [ "at"; "concat"; "copyWithin"; "fill"; "find"; "findIndex"; "findLast";
    "findLastIndex"; "lastIndexOf"; "pop"; "push"; "reverse"; "shift"; "unshift";
    "slice"; "sort"; "splice"; "includes"; "indexOf"; "join"; "keys"; "entries";
    "values"; "forEach"; "filter"; "flat"; "flatMap"; "map"; "every"; "some";
    "reduce"; "reduceRight"; "toReversed"; "toSorted"; "toSpliced"; "with" ].

Definition String_prototype : list string :=
  [ "anchor"; "at"; "big"; "blink"; "bold"; "charAt"; "charCodeAt"; "codePointAt";
    "concat"; "endsWith"; "fontcolor"; "fontsize"; "fixed"; "includes"; "indexOf";
    "isWellFormed"; "italics"; "lastIndexOf"; "link"; "localeCompare"; "match";
    "matchAll"; "normalize"; "padEnd"; "padStart"; "repeat"; "replace"; "replaceAll";
    "search"; "slice"; "small"; "split"; "strike"; "sub"; "substr"; "substring";
    "sup"; "startsWith"; "toWellFormed"; "trim"; "trimStart"; "trimLeft"; "trimEnd";
    "trimRight"; "toLocaleLowerCase"; "toLocaleUpperCase"; "toLowerCase";
    "toUpperCase" ].

Definition Number_prototype : list string := [ "toExponential"; "toFixed"; "toPrecision" ].

(** What is read under an inherited name: a function, or the prototype
    itself under [__proto__]. Either is truthy and has none of the fields a
    rule is read by ([exclude], [direct], [op], [target], [noNotify],
    [ifChanged], [noHistory]); the empty object stands for them, which
    reads the same. *)
Definition inherited (names : list string) (k : string) : jsval :=
  if bool_decide (k ∈ names) then JObj [] else JUndefined.

(** The index a property key denotes in an array or a string of [n]
    elements: [k] is the decimal numeral of an [i < n]. *)
Definition array_index (k : string) (n : nat) : option nat :=
  List.find (fun i => String.eqb (pretty i) k) (seq 0 n).

Definition Number_of_nat (n : nat) : float :=
  PrimFloat.of_uint63 (Uint63.of_Z (Z.of_nat n)).

(** [o[k]] for a name [k] that is free, as a metric name is: the own
    property when there is one (for an array or a string: its elements
    under their indices, and [length]), else what [o] inherits under that
    name. On [null] and [undefined] the read throws; [metric] is never one
    of them. *)
Definition member (o : jsval) (k : string) : jsval :=
  match o with
  | JUndefined | JNull => JUndefined
  | JBool _ => inherited Object_prototype k
  | JNum _ => inherited (Number_prototype ++ Object_prototype) k
  | JStr s =>
      match array_index k (String.length s) with
      | Some i => JStr (String.substring i 1 s)
      | None =>
          if String.eqb k "length" then JNum (Number_of_nat (String.length s))
          else inherited (String_prototype ++ Object_prototype) k
      end
  | JArr l =>
      match array_index k (length l) with
      | Some i => default JUndefined (l !! i)
      | None =>
          if String.eqb k "length" then JNum (Number_of_nat (length l))
          else inherited (Array_prototype ++ Object_prototype) k
      end
  | JObj ps =>
      match own k ps with
      | Some v => v
      | None => inherited Object_prototype k
      end
  end.

(** The rule of a metric: what [metric[key]] gives when that is truthy,
    or the default rule. *)
Definition resolve_probe (c : gmap string jsval) (monit : jsval) (key : string) : jsval :=
  let probe := member (cfg_get c "metric") key in
  if truthy probe then probe
  else JObj [ ("noNotify", JBool true);
              ("direct", JBool (strict_eq (get (get monit key) "direct") (JBool true)));
              ("noHistory", JBool (strict_eq (get (get monit key) "direct") (JBool true))) ].

(** The value the rule is tested on: the metric as reported for a direct
    rule, its [parseFloat] otherwise; [None] when that is NaN. *)
Definition coerce (probe : jsval) (value : jsval) : option jsval :=
  if negb (truthy (get probe "direct")) then
    let x := Number_parseFloat value in
    if PrimFloat.is_nan x then None else Some (JNum x)
  else Some value.

(** [probe.op in OP] and [OP[probe.op]]: the operator is looked up under
    its property key, among the six entries of the table (the rule's [op]
    is one of them by its declared type; the member names of
    [Object.prototype], which [in] would find too, are not operators). *)
Definition OP_get (op : jsval) : option (jsval -> jsval -> bool) :=
  own (ToString op) OP.

(** The variable [bad]: [None] while it is left undefined. *)
Definition threshold (probe : jsval) (v : jsval) : option bool :=
  if truthy (get probe "op") then
    match OP_get (get probe "op") with
    | Some f =>
        if negb (loose_eq (get probe "target") JNull)
        then Some (f v (get probe "target"))
        else None
    | None => None
    end
  else None.

(** The test under [// test]. *)
Definition alert_due (probe : jsval) (bad : option bool) (prev v : jsval) : bool :=
  negb (strict_eq (get probe "noNotify") (JBool true))
  && (if bad is Some true then true else false)
  && (negb (strict_eq (get probe "ifChanged") (JBool true)) || negb (strict_eq prev v)).

(** One row of the alert table. *)
Definition alert_row (e : jsval) (key : string) (v prev target : jsval) : string :=
  "<tr><td>" +:+ ToString (get e "name") +:+ ":" +:+ ToString (get e "pm_id")
  +:+ "</td><td>" +:+ key
  +:+ "</td><td>" +:+ ToString v
  +:+ "</td><td>" +:+ ToString prev
  +:+ "</td><td>" +:+ ToString target +:+ "</td></tr>".

(** What one pass has gathered so far. *)
Record pass : Type := {
  alerts : list string;
  snapshot : Snapshot;
  console : list string;
}.

(** The body of the loop over [Object.keys(monit)]. *)
Definition probe_metric (c : gmap string jsval) (e monit : jsval)
    (st : pass) (key : string) : pass :=
  let probe := resolve_probe c monit key in
  if strict_eq (get probe "exclude") (JBool true) then st else
  match coerce probe (get (get monit key) "value") with
  | None =>
      {| alerts := alerts st;
         snapshot := snapshot st;
         console := console st ++ ["monit [" +:+ key +:+ "] is not a number"] |}
  | Some v =>
      let bad := threshold probe v in
      let prev := last (snapshot st) (get e "pm_id") key in
      {| alerts :=
           if alert_due probe bad prev v
           then alerts st ++ [alert_row e key v prev (get probe "target")]
           else alerts st;
         snapshot :=
           push (snapshot st) (get e "pm_id") (get e "name") key
             (negb (truthy (get probe "noHistory")))
             {| data_v := v; data_bad := if bad is Some true then true else false |};
         console := console st |}
  end.

(** The body of the loop over the process list. *)
Definition probe_process (c : gmap string jsval) (st : pass) (e : jsval) : pass :=
  if isAppExcluded c (get e "name") then st
  else foldl (probe_metric c e (monit_of e)) st (keys (monit_of e)).

Definition probe_list (h : Health) (list : list jsval) : pass :=
  foldl (probe_process (_config h))
    {| alerts := []; snapshot := _snapshot h; console := [] |} list.

(** How a call of [testProbes] ends: [stopIfEx] exits the process, or the
    next pass is scheduled. *)
Inductive ending : Type :=
  | exits (code : Z) (out : list effect)
  | continues (h : Health) (out : list effect).

(** [testProbes], run at time [t] on what [PM2.list] calls back with: an
    error (by its text, [ex.message || ex]) or the process list. *)
Definition testProbes (h : Health) (t : Z) (listed : string + list jsval)
    (sent : option exn) : ending :=
  match listed with
  | inl ex => exits 1 [console_error ex]
  | inr list =>
      let st := probe_list h list in
      continues (with_snapshot h (send (snapshot st)))
        ((console_error <$> console st)
         ++ (if 0 <? Z.of_nat (length (alerts st))
             then mail h t
                    {| subject := pretty (length (alerts st)) +:+ " alert(s)";
                       body := AlertTable (String.concat "" (alerts st));
                       attachements := [] |}
                    sent
             else [])
         ++ [setTimeout (1000 * ToNumber (cfg_get (_config h) "metricIntervalS"))])
  end.

(** *** Start-up *)

(** The constructor with the mail collaborator it builds: the defaults are
    set first, then [new Mail] checks the same configuration. (What
    [new Snapshot] does is not among the sources.) *)
Definition Health_constructor (c : gmap string jsval) (file : option string)
    (s : Snapshot) : string + Health * Mail :=
  match Mail_new (_config (Health_new c s)) file with
  | inl message => inl message
  | inr (m, _) => inr (Health_new c s, m)
  end.

(** How [go] gets to [PM2.connect]: not at all when it throws before, or
    in a state [h], with, if one was set, the period in milliseconds of
    the timer that fetches the configuration again. *)
Inductive startup : Type :=
  | go_rejects (ex : exn) (out : list effect)
  | go_connects (h : Health) (out : list effect) (every : option float).

(** [go], up to the call of [PM2.connect]; [r] is what the first fetch
    comes back with. The first [configChanged] is under no [try]. *)
Definition go (h : Health) (r : fetched) : startup :=
  match configChanged h with
  | (_, Some ex) => go_rejects ex [info "pm2-health is on"]
  | (h0, None) =>
      let webConfig := cfg_get (_config h0) "webConfig" in
      if truthy webConfig && truthy (get webConfig "url") then
        let fetch := fetchConfig h0 r in
        let fetchIntervalM := get (cfg_get (_config fetch.1) "webConfig") "fetchIntervalM" in
        go_connects fetch.1 (info "pm2-health is on" :: fetch.2)
          (if js_gt fetchIntervalM (JNum 0)
           then Some (ToNumber fetchIntervalM * 60 * 1000)%float
           else None)
      else go_connects h0 [info "pm2-health is on"] None
  end.

(** The state after one fetch for each element of [rs], in order. *)
Definition fetch_all (h : Health) (rs : list fetched) : Health :=
  foldl (fun h r => (fetchConfig h r).1) h rs.

(** The value a fetch has for the field [k] of the configuration, if it
    has one: the payload's, for a key of [CONFIG_KEYS] it holds truthy. *)
Definition offered (k : string) (r : fetched) : option jsval :=
  match r with
  | parsed config =>
      if bool_decide (k ∈ CONFIG_KEYS) && truthy (get config k)
      then Some (get config k) else None
  | _ => None
  end.

(** Whether [mail] would return at once, at time [t]. *)
Definition muted (h : Health) (t : Z) : bool :=
  match _holdTill h with
  | Some till => Date_lt t till
  | None => false
  end.

(** The calls of the mail collaborator among the effects. *)
Definition sends (e : effect) : bool :=
  match e with
  | Mail_send _ => true
  | _ => false
  end.

(** The alert a pass with rows [rows] passes to [mail]. *)
Definition table_alert (rows : list string) : Alert :=
  {| subject := pretty (length rows) +:+ " alert(s)";
     body := AlertTable (String.concat "" rows);
     attachements := [] |}.

End Health.

(** ** A reference interpretation of the collaborators

    The theorems below hold for every engine and every store. To run the
    model on concrete inputs, [Node] interprets the builtins as ECMAScript
    and Node.js define them, and the history store as a journal of writes. *)

Module Node.

Definition code (a : ascii) : Z := Z.of_N (Ascii.N_of_ascii a).

(** StrWhiteSpaceChar, among the code units below 256 *)
Definition is_space (a : ascii) : bool :=
  let n := code a in
  (9 <=? n) && (n <=? 13) || (n =? 32) || (n =? 160).

Fixpoint trim_start (s : string) : string :=
  match s with
  | String a r => if is_space a then trim_start r else s
  | EmptyString => s
  end.

Definition trim_end (s : string) : string :=
  String.rev (trim_start (String.rev s)).

Definition digit_of (radix : Z) (a : ascii) : option Z :=
  let n := code a in
  let d :=
    if (48 <=? n) && (n <=? 57) then n - 48
    else if (97 <=? n) && (n <=? 122) then n - 87
    else if (65 <=? n) && (n <=? 90) then n - 55
    else radix in
  if d <? radix then Some d else None.

(** The longest run of digits at the head of [s]: its value on top of
    [acc], how many there were, and what follows. *)
Fixpoint digits (radix : Z) (s : string) (acc : Z) (n : Z) : Z * Z * string :=
  match s with
  | String a r =>
      match digit_of radix a with
      | Some d => digits radix r (radix * acc + d) (n + 1)
      | None => (acc, n, s)
      end
  | EmptyString => (acc, n, s)
  end.

Definition signed (neg : bool) (x : float) : float := if neg then (- x)%float else x.

(** The binary64 nearest to [m * 10 ^ e] ([m] positive), ties to even. *)
Definition round_decimal (m e : Z) : float :=
  let size := Z.of_nat (String.length (pretty m)) + e in
  if 400 <? size then PrimFloat.infinity
  else if size <? -400 then PrimFloat.zero
  else if 0 <=? e
  then SF2Prim (binary_normalize prec emax (m * 10 ^ e) 0 false)
  else
    let '(q, e', l) := SFdiv_core_binary prec emax m 0 (10 ^ (- e)) 0 in
    SF2Prim (binary_round_aux prec emax false q e' l).

Definition of_decimal (neg : bool) (m e : Z) : float :=
  signed neg (if m =? 0 then PrimFloat.zero else round_decimal m e).

Definition sign_of (s : string) : bool * string :=
  match s with
  | String "-" r => (true, r)
  | String "+" r => (false, r)
  | _ => (false, s)
  end.

Definition after (p s : string) : option string :=
  if String.prefix p s
  then Some (String.substring (String.length p) (String.length s) s)
  else None.

(** An ExponentPart at the head of [s], if there is a whole one. *)
Definition exponent (s : string) : Z * string :=
  match s with
  | String c r =>
      if (code c =? 101) || (code c =? 69) then
        let '(neg, r') := sign_of r in
        let '(x, n, rest) := digits 10 r' 0 0 in
        if 0 <? n then (if neg then - x else x, rest) else (0, s)
      else (0, s)
  | EmptyString => (0, s)
  end.

(** The longest StrDecimalLiteral at the head of [s] and what follows it;
    [None] when there is none. *)
Definition decimal_literal (s : string) : option (float * string) :=
  let '(neg, s1) := sign_of s in
  match after "Infinity" s1 with
  | Some rest => Some (signed neg PrimFloat.infinity, rest)
  | None =>
      let '(i, ni, s2) := digits 10 s1 0 0 in
      let '(m, nf, s3) :=
        match s2 with
        | String "." r =>
            let '(m, nf, s3) := digits 10 r i 0 in
            if 0 <? ni + nf then (m, nf, s3) else (i, 0, s2)
        | _ => (i, 0, s2)
        end in
      if 0 <? ni + nf then
        let '(x, rest) := exponent s3 in
        Some (of_decimal neg m (x - nf), rest)
      else None
  end.

(** [parseFloat] on a string *)
Definition parse_float (s : string) : float :=
  match decimal_literal (trim_start s) with
  | Some (x, _) => x
  | None => PrimFloat.nan
  end.

Definition radix_literal (s : string) : option float :=
  match s with
  | String "0" (String c r) =>
      let radix :=
        if (code c =? 120) || (code c =? 88) then 16
        else if (code c =? 111) || (code c =? 79) then 8
        else if (code c =? 98) || (code c =? 66) then 2
        else 0 in
      if radix =? 0 then None else
      match digits radix r 0 0 with
      | (m, n, EmptyString) =>
          if 0 <? n
          then Some (SF2Prim (binary_normalize prec emax m 0 false))
          else Some PrimFloat.nan
      | _ => Some PrimFloat.nan
      end
  | _ => None
  end.

(** [StringToNumber] *)
Definition string_to_number (s : string) : float :=
  let t := trim_end (trim_start s) in
  match t with
  | EmptyString => PrimFloat.zero
  | _ =>
      match radix_literal t with
      | Some x => x
      | None =>
          match decimal_literal t with
          | Some (x, EmptyString) => x
          | _ => PrimFloat.nan
          end
      end
  end.


(** *** Number to string *)

Definition pow10 (n : Z) : Z := 10 ^ n.

(** [x = p / q] scaled by [10 ^ d]: numerator and denominator. *)
Definition scaled (p q d : Z) : Z * Z :=
  if 0 <=? d then (p * pow10 d, q) else (p, q * pow10 (- d)).

(** The [n] with [10 ^ (n - 1) <= p / q < 10 ^ n], from a first guess. *)
Fixpoint magnitude (fuel : nat) (p q n : Z) : Z :=
  match fuel with
  | O => n
  | S fuel' =>
      let '(a, b) := scaled p q (- n) in
      if b <=? a then magnitude fuel' p q (n + 1)
      else
        let '(a', b') := scaled p q (1 - n) in
        if a' <? b' then magnitude fuel' p q (n - 1) else n
  end.

(** The [k]-digit decimal [s * 10 ^ (n - k)] that converts back to [x]
    and is nearest to [p / q], if one does. *)
Definition candidate (x : float) (p q n k : Z) : option Z :=
  let '(a, b) := scaled p q (k - n) in
  let lo := a / b in
  let hi := lo + 1 in
  let ok s := (0 <? s) && PrimFloat.eqb (round_decimal s (n - k)) x in
  let dlo := a - lo * b in
  let dhi := hi * b - a in
  match ok lo, ok hi with
  | true, true =>
      if dlo <? dhi then Some lo
      else if dhi <? dlo then Some hi
      else if Z.even lo then Some lo else Some hi
  | true, false => Some lo
  | false, true => Some hi
  | false, false => None
  end.

Fixpoint shortest (fuel : nat) (x : float) (p q n k : Z) : Z * Z * Z :=
  match fuel with
  | O => (0, n, k)
  | S fuel' =>
      match candidate x p q n k with
      | Some s => if s =? pow10 k then (pow10 (k - 1), n + 1, k) else (s, n, k)
      | None => shortest fuel' x p q n (k + 1)
      end
  end.

Definition zeros (n : Z) : string := String.concat "" (replicate (Z.to_nat n) "0").

Definition head_of (n : Z) (s : string) : string := String.substring 0 (Z.to_nat n) s.
Definition tail_of (n : Z) (s : string) : string :=
  String.substring (Z.to_nat n) (String.length s) s.

(** The text of a positive finite number from its digits [s], their
    count [k] and the decimal exponent [n]. *)
Definition layout (s n k : Z) : string :=
  let ds := pretty s in
  if (k <=? n) && (n <=? 21) then ds +:+ zeros (n - k)
  else if (0 <? n) && (n <=? 21) then head_of n ds +:+ "." +:+ tail_of n ds
  else if (-6 <? n) && (n <=? 0) then "0." +:+ zeros (- n) +:+ ds
  else
    let e := n - 1 in
    let ex := (if e <? 0 then "e-" else "e+") +:+ pretty (Z.abs e) in
    if k =? 1 then ds +:+ ex else head_of 1 ds +:+ "." +:+ tail_of 1 ds +:+ ex.

(** [Number::toString], radix 10 *)
Definition number_to_string (x : float) : string :=
  match Prim2SF x with
  | S754_nan => "NaN"
  | S754_zero _ => "0"
  | S754_infinity neg => if neg then "-Infinity" else "Infinity"
  | S754_finite neg m e =>
      let '(p, q) := if 0 <=? e then (Zpos m * 2 ^ e, 1) else (Zpos m, 2 ^ (- e)) in
      let guess := Z.of_nat (String.length (pretty p)) - Z.of_nat (String.length (pretty q)) in
      let n := magnitude 4 p q guess in
      let '(s, n', k) := shortest 17 (PrimFloat.abs x) p q n 1 in
      (if neg then "-" else "") +:+ layout s n' k
  end.

(** *** JSON text *)

Definition chr (n : Z) : string := String (Ascii.ascii_of_N (Z.to_N n)) "".
Definition quote_mark : string := chr 34.
Definition newline : string := chr 10.

Definition hex_digit (n : Z) : string :=
  if n <? 10 then chr (48 + n) else chr (87 + n).

Definition escape (a : ascii) : string :=
  let n := code a in
  if n =? 34 then "\" +:+ quote_mark
  else if n =? 92 then "\\"
  else if n =? 8 then "\b"
  else if n =? 12 then "\f"
  else if n =? 10 then "\n"
  else if n =? 13 then "\r"
  else if n =? 9 then "\t"
  else if n <? 32 then "\u00" +:+ hex_digit (n / 16) +:+ hex_digit (n mod 16)
  else String a "".

Fixpoint escape_all (s : string) : string :=
  match s with
  | EmptyString => ""
  | String a r => escape a +:+ escape_all r
  end.

Definition quote (s : string) : string := quote_mark +:+ escape_all s +:+ quote_mark.

Definition block (opening closing ind : string) (items : list string) : string :=
  match items with
  | [] => opening +:+ closing
  | _ :: _ =>
      opening +:+ newline +:+ ind +:+ "    "
      +:+ String.concat ("," +:+ newline +:+ ind +:+ "    ") items
      +:+ newline +:+ ind +:+ closing
  end.

(** [JSON.stringify(v, undefined, 4)] at indentation [ind]; [None] where
    it gives [undefined]. *)
Fixpoint stringify (ind : string) (v : jsval) {struct v} : option string :=
  match v with
  | JUndefined => None
  | JNull => Some "null"
  | JBool b => Some (if b then "true" else "false")
  | JNum x => Some (if PrimFloat.is_finite x then number_to_string x else "null")
  | JStr s => Some (quote s)
  | JArr l =>
      Some (block "[" "]" ind
        ((fix items (l : list jsval) : list string :=
            match l with
            | [] => []
            | x :: r => default "null" (stringify (ind +:+ "    ") x) :: items r
            end) l))
  | JObj ps =>
      Some (block "{" "}" ind
        ((fix items (ps : list (string * jsval)) : list string :=
            match ps with
            | [] => []
            | (k, x) :: r =>
                match stringify (ind +:+ "    ") x with
                | Some t => (quote k +:+ ": " +:+ t) :: items r
                | None => items r
                end
            end) ps))
  end.

(** The text as a template literal or [RegExp.prototype.test] reads it. *)
Definition json_text (v : jsval) : string := default "undefined" (stringify "" v).

(** *** Regular expressions and paths *)

(** SyntaxCharacter *)
Definition is_syntax (a : ascii) : bool :=
  bool_decide (code a ∈ [94; 36; 92; 46; 42; 43; 63; 40; 41; 91; 93; 123; 125; 124]).

Fixpoint all_chars (f : ascii -> bool) (s : string) : bool :=
  match s with
  | EmptyString => true
  | String a r => f a && all_chars f r
  end.

(** How many groups are open after [s]; [None] once one is closed that
    was not open. *)
Fixpoint open_groups (s : string) (n : Z) : option Z :=
  match s with
  | EmptyString => Some n
  | String a r =>
      if code a =? 40 then open_groups r (n + 1)
      else if code a =? 41 then (if n =? 0 then None else open_groups r (n - 1))
      else open_groups r n
  end.

(** A pattern free of syntax characters matches where it occurs, and the
    empty group [(?:)] matches everywhere. The other patterns are not
    interpreted: those whose only syntax characters are parentheses that
    do not pair up are the SyntaxErrors they are in the language, the rest
    is taken as compiled and is never tested in what follows. *)
Inductive pattern : Type :=
  | literal (text : string)
  | uninterpreted (source : string).

Definition regexp_new (p : string) : option pattern :=
  if String.eqb p "(?:)" then Some (literal "")
  else if all_chars (fun a => negb (is_syntax a)) p then Some (literal p)
  else if all_chars (fun a => negb (is_syntax a) || (code a =? 40) || (code a =? 41)) p
  then (if open_groups p 0 is Some 0 then Some (uninterpreted p) else None)
  else Some (uninterpreted p).

Fixpoint occurs (p s : string) : bool :=
  String.prefix p s
  || match s with
     | EmptyString => false
     | String _ r => occurs p r
     end.

Definition regexp_test (r : pattern) (s : string) : bool :=
  match r with
  | literal p => occurs p s
  | uninterpreted _ => false
  end.

Fixpoint strip_slashes (s : string) : string :=
  match s with
  | String "/" r => strip_slashes r
  | _ => s
  end.

(** The last segment of [s], read from its end. *)
Fixpoint segment (s : string) (acc : string) : string :=
  match s with
  | EmptyString => acc
  | String a r => if code a =? 47 then acc else segment r (String a acc)
  end.

(** [path.basename] (POSIX) *)
Definition path_basename (p : string) : string :=
  segment (strip_slashes (String.rev p)) "".

(** The builtins, on strings of code units below 256. Numbers are read
    and printed exactly. Of regular expressions only the patterns
    described at [regexp_new] are interpreted. *)
#[export] Instance engine : JsEngine := {|
  parseFloat := parse_float;
  StringToNumber := string_to_number;
  NumberToString := number_to_string;
  RegExp := pattern;
  RegExp_new := regexp_new;
  RegExp_test := regexp_test;
  JSON_stringify := json_text;
  basename := path_basename;
|}.

(** *** History store *)

Record entry : Type := {
  entry_pm_id : jsval;
  entry_name : jsval;
  entry_key : string;
  entry_history : bool;
  entry_data : HistoryData;
}.

Record journal : Type := {
  recorded : list entry;
  unsent : list entry;
}.

Definition journal_last (s : journal) (pm_id : jsval) (key : string) : jsval :=
  match List.find (fun w => strict_eq (entry_pm_id w) pm_id && String.eqb (entry_key w) key)
          (rev (recorded s)) with
  | Some w => data_v (entry_data w)
  | None => JUndefined
  end.

Definition journal_push (s : journal) (pm_id name : jsval) (key : string)
    (history : bool) (d : HistoryData) : journal :=
  let w := {| entry_pm_id := pm_id; entry_name := name; entry_key := key;
              entry_history := history; entry_data := d |} in
  {| recorded := recorded s ++ [w]; unsent := unsent s ++ [w] |}.

Definition journal_send (s : journal) : journal :=
  {| recorded := recorded s; unsent := [] |}.

(** Modelled from the spec: [Snapshot.ts] is not among the sources. A
    store that keeps every write in order: "last(processId, metricKey) ->
    previousValue|undefined" is the value of the latest write for that
    process and metric, "send() flushes accumulated writes". *)
#[export] Instance store : SnapshotStore := {|
  Snapshot := journal;
  last := journal_last;
  push := journal_push;
  send := journal_send;
|}.

End Node.

(** ** Concrete inputs *)

Module Example.
Import Node.

Definition empty_journal : journal := {| recorded := []; unsent := [] |}.

(** A program built from the fields of a configuration file. *)
Definition health_of (fields : list (string * jsval)) : Health :=
  Health_new (list_to_map fields) empty_journal.

Definition webConfig : string * jsval :=
  ("webConfig", JObj [("url", JStr "http://localhost:8888/health.json");
                      ("fetchIntervalM", JNum 10)]).

Definition smtp : string * jsval :=
  ("smtp", JObj [("host", JStr "localhost"); ("port", JNum 25)]).

(** [{ "node": { "target": "v20.1.0", "op": "!=", "direct": true } }] *)
Definition node_rule : jsval :=
  JObj [("target", JStr "v20.1.0"); ("op", JStr "!="); ("direct", JBool true)].

Definition versions : Health :=
  health_of [smtp; ("metric", JObj [("node", node_rule)])].

(** An entry of the process list: the process [api:3] on Node v18.0.0. *)
Definition api : jsval :=
  JObj [("name", JStr "api"); ("pm_id", JNum 3);
        ("pm2_env", JObj [("node_version", JStr "v18.0.0")])].

(** [{ "cpu": { "target": 90, "op": ">" }, "queue": { "target": 10, "op": ">" } }] *)
Definition thresholds : Health :=
  health_of
    [smtp;
     ("metric", JObj [("cpu", JObj [("target", JNum 90); ("op", JStr ">")]);
                      ("queue", JObj [("target", JNum 10); ("op", JStr ">")])])].

(** The process [app:3] at 95% cpu, with a custom metric that is no number. *)
Definition app : jsval :=
  JObj [("name", JStr "app"); ("pm_id", JNum 3);
        ("monit", JObj [("memory", JNum 52428800); ("cpu", JNum 95)]);
        ("pm2_env", JObj [("axm_monitor", JObj [("queue", JObj [("value", JStr "n/a")])])])].

Definition fresh : pass :=
  {| alerts := []; snapshot := empty_journal; console := [] |}.

(** [events] set to the empty list. *)
Definition silent : Health := health_of [smtp; ("events", JArr [])].

(** [events] naming two events, and one excluded application. *)
Definition selective : Health :=
  health_of [smtp; webConfig;
             ("events", JArr [JStr "exit"; JStr "restart"]);
             ("appsExcluded", JArr [JStr "batch"]);
             ("exceptions", JBool true);
             ("addLogs", JBool true)].

Definition lifecycle (name event : string) : jsval :=
  JObj [("event", JStr event); ("manually", JBool false);
        ("process", JObj [("name", JStr name); ("pm_id", JNum 0);
                          ("pm_err_log_path", JStr "/var/log/pm2/err.log")])].

(** A payload whose exclusion pattern does not compile. *)
Definition bad_pattern : jsval :=
  JObj [("metricIntervalS", JNum 30); ("messageExcludeExps", JArr [JStr "("])].

(** A payload with one truthy key of the list, one falsy, one outside it. *)
Definition partial : jsval :=
  JObj [("metricIntervalS", JNum 30); ("addLogs", JBool false);
        ("smtp", JObj [("host", JStr "example.org")])].

(** [{ "cpu": { "target": 90, "op": ">", "ifChanged": true } }] *)
Definition on_change : Health :=
  health_of
    [smtp;
     ("metric", JObj [("cpu", JObj [("target", JNum 90); ("op", JStr ">");
                                    ("ifChanged", JBool true)])])].

(** The state a pass over [list] leaves behind. *)
Definition after_pass (h : Health) (list : list jsval) : Health :=
  match testProbes h 0 (inr list) None with
  | continues h' _ => h'
  | exits _ _ => h
  end.

(** A rule whose target is a word. *)
Definition worded : jsval := JObj [("target", JStr "high"); ("op", JStr ">")].

(** A fetched payload with one exclusion pattern, and a message it fits. *)
Definition secret_patterns : jsval :=
  JObj [("messageExcludeExps", JArr [JStr "secret"])].

Definition secret_message : jsval :=
  JObj [("data", JObj [("secret", JNum 123)]);
        ("process", JObj [("name", JStr "api"); ("pm_id", JNum 0)])].

(** The same pattern, written in the configuration file as a string. *)
Definition pattern_as_text : Health :=
  health_of [smtp; ("messageExcludeExps", JStr "secret")].

(** A process that reports a metric of its own under the name [cpu]. *)
Definition shadowed : jsval :=
  JObj [("name", JStr "app"); ("pm_id", JNum 3);
        ("monit", JObj [("memory", JNum 52428800); ("cpu", JNum 95)]);
        ("pm2_env",
         JObj [("axm_monitor", JObj [("cpu", JObj [("value", JStr "n/a")]);
                                     ("queue", JObj [("value", JNum 4)])])])].

(** A configuration with no flag set, and a payload that sets one. *)
Definition quiet : Health := health_of [smtp; webConfig].

Definition enable_exceptions : jsval := JObj [("exceptions", JBool true)].

(** A configuration that asks for message alerts. *)
Definition listening : Health := health_of [smtp; webConfig; ("messages", JBool true)].

(** A message no pattern of [secret_patterns] fits. *)
Definition plain_message : jsval :=
  JObj [("data", JObj [("level", JStr "warn")]);
        ("process", JObj [("name", JStr "api"); ("pm_id", JNum 0)])].

Definition effects_of (e : ending) : list effect :=
  match e with
  | continues _ out | exits _ out => out
  end.

Definition greeting : Alert :=
  {| subject := "api:3 - exit"; body := EventBody "api:3" "exit" "{}"; attachements := [] |}.

End Example.

(** ** Facts about the value layer *)

Lemma strict_eq_true (v : jsval) : strict_eq v (JBool true) = true <-> v = JBool true.
Proof.
  split.
  - destruct v as [| |[]| | | |]; simpl; congruence.
  - intros ->. reflexivity.
Qed.

Lemma strict_eq_not_true (v : jsval) : strict_eq v (JBool true) = false <-> v <> JBool true.
Proof.
  rewrite <- strict_eq_true. destruct (strict_eq v (JBool true)); intuition congruence.
Qed.

Lemma strict_eq_string (v : jsval) (s : string) :
  strict_eq v (JStr s) = true <-> v = JStr s.
Proof.
  split.
  - destruct v; simpl; try discriminate. intros E. apply String.eqb_eq in E. congruence.
  - intros ->. simpl. apply String.eqb_refl.
Qed.

Lemma indexOf_from_missing (l : list jsval) (x : jsval) (i : Z) :
  0 <= i ->
  indexOf_from i l x = -1 <-> Forall (fun y => strict_eq y x = false) l.
Proof.
  revert i. induction l as [|y r IH]; intros i Hi; simpl.
  - split; [constructor | reflexivity].
  - destruct (strict_eq y x) eqn:E.
    + split; [lia | intros F; inversion F; congruence].
    + rewrite IH by lia. split; [now constructor | intros F; now inversion F].
Qed.

(** [l.indexOf(s) === -1], for a string [s]: no element of [l] is [s]. *)
Lemma indexOf_string (l : list jsval) (s : string) :
  (indexOf l (JStr s) =? -1) = false <-> JStr s ∈ l.
Proof.
  unfold indexOf. rewrite Z.eqb_neq, (indexOf_from_missing l (JStr s) 0) by lia.
  rewrite Forall_forall. split.
  - intros N. induction l as [|y r IH]; [destruct N; intros ? []%elem_of_nil|].
    destruct (strict_eq y (JStr s)) eqn:E.
    + apply strict_eq_string in E. subst y. apply elem_of_cons. now left.
    + apply elem_of_cons. right. apply IH. intros F. apply N.
      intros z [->|I]%elem_of_cons; auto.
  - intros I F. specialize (F _ I).
    simpl in F. rewrite String.eqb_refl in F. discriminate.
Qed.

Lemma isAppExcluded_spec (c : gmap string jsval) (app : string) :
  isAppExcluded c (JStr app) = true <->
  app = "pm2-health" \/ exists l, cfg_get c "appsExcluded" = JArr l /\ JStr app ∈ l.
Proof.
  unfold isAppExcluded. rewrite orb_true_iff, strict_eq_string.
  split.
  - intros [E|E]; [left; congruence|]. right.
    destruct (cfg_get c "appsExcluded"); simpl in E; try discriminate.
    eexists. split; [reflexivity|]. apply indexOf_string. now apply negb_true_iff.
  - intros [->|(l & -> & I)]; [now left|]. right. simpl.
    apply negb_true_iff. now apply indexOf_string.
Qed.

Lemma no_self_app {A} (l : list A) (x : A) : l ++ [x] <> l.
Proof.
  intros E. apply (f_equal length) in E. rewrite length_app in E. simpl in E. lia.
Qed.

Lemma own_obj_set_same {A} (k : string) (v : A) (ps : list (string * A)) :
  own k (obj_set k v ps) = Some v.
Proof.
  induction ps as [|[k' v'] r IH]; simpl.
  - now rewrite String.eqb_refl.
  - destruct (String.eqb k k') eqn:E; simpl; rewrite ?String.eqb_refl, ?E; auto.
Qed.

Lemma own_obj_set_other {A} (k k' : string) (v : A) (ps : list (string * A)) :
  k <> k' -> own k' (obj_set k v ps) = own k' ps.
Proof.
  intros N. induction ps as [|[k'' v''] r IH]; simpl.
  - apply String.eqb_neq in N. rewrite String.eqb_sym. now rewrite N.
  - destruct (String.eqb k k'') eqn:E; simpl.
    + apply String.eqb_eq in E as <-.
      assert (String.eqb k' k = false) as -> by (rewrite String.eqb_sym; now apply String.eqb_neq).
      reflexivity.
    + now rewrite IH.
Qed.

Lemma is_object_set_prop (o : jsval) (k : string) (v : jsval) :
  (exists ps, o = JObj ps) -> exists ps, set_prop o k v = JObj ps.
Proof. intros [ps ->]. simpl. eauto. Qed.

Lemma get_set_prop_same (o : jsval) (k : string) (v : jsval) :
  (exists ps, o = JObj ps) -> get (set_prop o k v) k = v.
Proof. intros [ps ->]. simpl. now rewrite own_obj_set_same. Qed.

Lemma get_set_prop_other (o : jsval) (k k' : string) (v : jsval) :
  k <> k' -> get (set_prop o k v) k' = get o k'.
Proof.
  intros N. destruct o; try reflexivity. simpl. now rewrite own_obj_set_other.
Qed.

Section Claims.
Context `{JsEngine} `{SnapshotStore}.

(** *** Probe evaluator *)

(** The two version metrics [testProbes] writes into the metrics of a
    process are marked [direct]. *)
Lemma injected_versions_direct (e : jsval) :
  (truthy (get (get e "pm2_env") "axm_monitor") = false
   \/ exists ps, get (get e "pm2_env") "axm_monitor" = JObj ps) ->
  (truthy (get (get e "pm2_env") "_pm2_version") = true ->
     get (get (monit_of e) "pm2") "direct" = JBool true)
  /\ (truthy (get (get e "pm2_env") "node_version") = true ->
        get (get (monit_of e) "node") "direct" = JBool true).
Proof.
  intros M. unfold monit_of.
  set (env := get e "pm2_env") in *.
  set (monit1 := if truthy (get env "axm_monitor") then get env "axm_monitor" else JObj []).
  assert (exists ps, monit1 = JObj ps) as O1.
  { subst monit1. destruct M as [-> | [ps E]]; [eauto|]. rewrite E. simpl. eauto. }
  set (monit2 := if truthy (get e "monit") then _ else monit1).
  assert (exists ps, monit2 = JObj ps) as O2.
  { subst monit2. destruct (truthy (get e "monit")); [|exact O1].
    now apply is_object_set_prop, is_object_set_prop. }
  assert (forall k, truthy (get env k) = true -> truthy env = true) as T.
  { intros k. destruct env; simpl; auto; discriminate. }
  split; intros V; rewrite (T _ V).
  - rewrite V. destruct (truthy (get env "node_version")).
    + rewrite get_set_prop_other by discriminate. now rewrite get_set_prop_same.
    + now rewrite get_set_prop_same.
  - rewrite V. rewrite get_set_prop_same; [reflexivity|].
    destruct (truthy (get env "_pm2_version")); [|exact O2].
    now apply is_object_set_prop.
Qed.

Lemma loose_eq_null (v : jsval) : loose_eq v JNull = nullish v.
Proof. destruct v; reflexivity. Qed.

Lemma probe_process_runs (c : gmap string jsval) (st : pass) (e : jsval) :
  isAppExcluded c (get e "name") = false ->
  probe_process c st e = foldl (probe_metric c e (monit_of e)) st (keys (monit_of e)).
Proof. unfold probe_process. now intros ->. Qed.

Lemma threshold_undefined (probe v : jsval) :
  truthy (get probe "op") = false \/ OP_get (get probe "op") = None
  \/ nullish (get probe "target") = true ->
  threshold probe v = None.
Proof.
  unfold threshold. rewrite loose_eq_null.
  intros [->|[->| ->]]; [reflexivity | now destruct (truthy _) |].
  destruct (truthy _); [|reflexivity]. now destruct (OP_get _).
Qed.

Lemma threshold_defined (probe v : jsval) (f : jsval -> jsval -> bool) :
  truthy (get probe "op") = true -> OP_get (get probe "op") = Some f ->
  nullish (get probe "target") = false ->
  threshold probe v = Some (f v (get probe "target")).
Proof.
  unfold threshold. rewrite loose_eq_null. now intros -> -> ->.
Qed.

Lemma alert_due_spec (probe : jsval) (bad : option bool) (prev v : jsval) :
  alert_due probe bad prev v = true <->
  get probe "noNotify" <> JBool true /\ bad = Some true
  /\ (get probe "ifChanged" <> JBool true \/ strict_eq prev v = false).
Proof.
  unfold alert_due.
  rewrite !andb_true_iff, orb_true_iff, !negb_true_iff, !strict_eq_not_true.
  destruct bad as [[]|]; intuition congruence.
Qed.

(** The alerts after one metric: the ones before, with one row more when
    the metric was coerced and the test under [// test] passed. *)
Lemma probe_metric_alerts (c : gmap string jsval) (e monit : jsval) (st : pass) (key : string) :
  alerts (probe_metric c e monit st key) =
    if strict_eq (get (resolve_probe c monit key) "exclude") (JBool true) then alerts st
    else match coerce (resolve_probe c monit key) (get (get monit key) "value") with
         | None => alerts st
         | Some v =>
             if alert_due (resolve_probe c monit key)
                  (threshold (resolve_probe c monit key) v)
                  (last (snapshot st) (get e "pm_id") key) v
             then alerts st ++ [alert_row e key v (last (snapshot st) (get e "pm_id") key)
                                  (get (resolve_probe c monit key) "target")]
             else alerts st
         end.
Proof.
  unfold probe_metric. destruct (strict_eq _ _); [reflexivity|].
  now destruct (coerce _ _).
Qed.

(** When a metric adds a row to the alerts. *)
Lemma row_added_iff (c : gmap string jsval) (e monit : jsval) (st : pass)
    (key : string) (probe : jsval) :
  probe = resolve_probe c monit key ->
  get probe "exclude" <> JBool true ->
  (exists row, alerts (probe_metric c e monit st key) = alerts st ++ [row]) <->
    get probe "noNotify" <> JBool true
    /\ exists v, coerce probe (get (get monit key) "value") = Some v
         /\ threshold probe v = Some true
         /\ (get probe "ifChanged" <> JBool true
             \/ strict_eq (last (snapshot st) (get e "pm_id") key) v = false).
Proof.
  intros -> X%strict_eq_not_true. rewrite probe_metric_alerts, X.
  destruct (coerce _ _) as [v|] eqn:C.
  - destruct (alert_due _ _ _ _) eqn:D.
    + apply alert_due_spec in D as (N & B & I).
      split; [intros _; split; [exact N|]; exists v; auto | eauto].
    + split.
      * intros [row E]. symmetry in E. now apply no_self_app in E.
      * intros (N & v' & [= <-] & B & I).
        assert (alert_due (resolve_probe c monit key)
                  (threshold (resolve_probe c monit key) v)
                  (last (snapshot st) (get e "pm_id") key) v = true) as D'
          by (apply alert_due_spec; auto).
        congruence.
  - split.
    + intros [row E]. symmetry in E. now apply no_self_app in E.
    + intros (_ & v & [=] & _).
Qed.

(** C4: in one pass, for a metric whose rule does not set [exclude], a row
    is added to the alerts iff [noNotify] is not true, the threshold test
    on the coerced value came out true, and [ifChanged] is not true or the
    value differs from the last one the history store has for this process
    and metric. When [op] is missing or is no operator, or [target] is
    null or missing, the threshold result stays undefined and no row is
    added. *)
Theorem alert_row_iff (c : gmap string jsval) (e monit : jsval) (st : pass)
    (key : string) (probe : jsval) :
  probe = resolve_probe c monit key ->
  get probe "exclude" <> JBool true ->
  ((exists row, alerts (probe_metric c e monit st key) = alerts st ++ [row]) <->
     get probe "noNotify" <> JBool true
     /\ exists v, coerce probe (get (get monit key) "value") = Some v
          /\ threshold probe v = Some true
          /\ (get probe "ifChanged" <> JBool true
              \/ strict_eq (last (snapshot st) (get e "pm_id") key) v = false))
  /\ (truthy (get probe "op") = false \/ OP_get (get probe "op") = None
      \/ nullish (get probe "target") = true ->
      (forall v, threshold probe v = None)
      /\ alerts (probe_metric c e monit st key) = alerts st).
Proof.
  intros E X. split; [now apply row_added_iff|].
  intros U. split; [intros v; now apply threshold_undefined|].
  subst probe. apply strict_eq_not_true in X. rewrite probe_metric_alerts, X.
  destruct (coerce _ _) as [v|]; [|reflexivity].
  rewrite (threshold_undefined _ v U). unfold alert_due.
  now rewrite andb_false_r.
Qed.

(** C6: a metric whose rule is not [direct] and whose value parses to NaN
    is skipped: one line goes to the console, the alerts and the history
    store are left as they were, and the loop goes on with the next key. *)
Theorem nan_metric_skipped (c : gmap string jsval) (e monit : jsval) (st : pass)
    (key : string) (rest : list string) (probe : jsval) :
  probe = resolve_probe c monit key ->
  get probe "exclude" <> JBool true ->
  truthy (get probe "direct") = false ->
  PrimFloat.is_nan (Number_parseFloat (get (get monit key) "value")) = true ->
  probe_metric c e monit st key =
    {| alerts := alerts st; snapshot := snapshot st;
       console := console st ++ ["monit [" +:+ key +:+ "] is not a number"] |}
  /\ foldl (probe_metric c e monit) st (key :: rest) =
     foldl (probe_metric c e monit)
       {| alerts := alerts st; snapshot := snapshot st;
          console := console st ++ ["monit [" +:+ key +:+ "] is not a number"] |} rest.
Proof.
  intros -> X%strict_eq_not_true D N.
  assert (probe_metric c e monit st key =
    {| alerts := alerts st; snapshot := snapshot st;
       console := console st ++ ["monit [" +:+ key +:+ "] is not a number"] |}) as E.
  { unfold probe_metric, coerce. now rewrite X, D, N. }
  split; [exact E|]. simpl. now rewrite E.
Qed.

Lemma member_plain (ps : list (string * jsval)) (k : string) :
  k ∉ Object_prototype -> member (JObj ps) k = get (JObj ps) k.
Proof.
  intros K. unfold member, get, inherited. rewrite bool_decide_eq_false_2 by exact K.
  now destruct (own k ps).
Qed.

(** C9 does not hold of the code for every name: [metric[key]] also finds
    what the [metric] object inherits. For a metric called [constructor]
    and an empty [metric] map, the rule taken is the inherited member and
    not the default rule; a metric reported with [direct: true], which the
    default rule would pass through, is then parsed as a number and
    skipped. It still adds no row. *)
Theorem inherited_name_takes_no_default (e : jsval) (st : pass) :
  let c : gmap string jsval := {["metric" := JObj []]} in
  let monit := JObj [("constructor", JObj [("value", JStr "v1"); ("direct", JBool true)])] in
  get (cfg_get c "metric") "constructor" = JUndefined
  /\ resolve_probe c monit "constructor" = JObj []
  /\ resolve_probe c monit "constructor" <>
       JObj [("noNotify", JBool true); ("direct", JBool true); ("noHistory", JBool true)]
  /\ truthy (get (resolve_probe c monit "constructor") "direct") = false
  /\ (PrimFloat.is_nan (parseFloat "v1") = true ->
      probe_metric c e monit st "constructor" =
        {| alerts := alerts st; snapshot := snapshot st;
           console := console st ++ ["monit [constructor] is not a number"] |}).
Proof.
  intros c monit.
  assert (resolve_probe c monit "constructor" = JObj []) as R by reflexivity.
  split; [reflexivity|]. split; [exact R|]. split; [rewrite R; discriminate|].
  split; [now rewrite R|].
  intros N. unfold probe_metric. rewrite R. simpl.
  unfold coerce, Number_parseFloat. simpl. now rewrite N.
Qed.

(** C1, as the code has it: for a rule with [direct] set the metric is
    taken as reported, without [parseFloat]; the threshold test is applied
    to it like to any other value whenever [op] is an operator and [target]
    is set, and a row is added to the alerts under the same test as for
    every rule. *)
Theorem direct_probe_compared (c : gmap string jsval) (e monit : jsval) (st : pass)
    (key : string) (probe : jsval) :
  probe = resolve_probe c monit key ->
  get probe "exclude" <> JBool true ->
  truthy (get probe "direct") = true ->
  coerce probe (get (get monit key) "value") = Some (get (get monit key) "value")
  /\ (forall f, truthy (get probe "op") = true -> OP_get (get probe "op") = Some f ->
        nullish (get probe "target") = false ->
        threshold probe (get (get monit key) "value") =
          Some (f (get (get monit key) "value") (get probe "target")))
  /\ ((exists row, alerts (probe_metric c e monit st key) = alerts st ++ [row]) <->
        get probe "noNotify" <> JBool true
        /\ threshold probe (get (get monit key) "value") = Some true
        /\ (get probe "ifChanged" <> JBool true
            \/ strict_eq (last (snapshot st) (get e "pm_id") key)
                 (get (get monit key) "value") = false)).
Proof.
  intros E X D.
  assert (coerce probe (get (get monit key) "value") = Some (get (get monit key) "value"))
    as C by (unfold coerce; now rewrite D).
  split; [exact C|]. split; [intros f; apply threshold_defined|].
  rewrite (row_added_iff c e monit st key probe E X).
  rewrite C. split.
  - intros (N & v & [= <-] & B & I). auto.
  - intros (N & B & I). split; [exact N|]. eauto.
Qed.

(** *** Exclusion *)

(** A pass over a list of processes is the pass over the list without
    the entries of an excluded name. *)
Lemma excluded_entries_skipped (c : gmap string jsval) (app : string)
    (list : list jsval) (st : pass) :
  isAppExcluded c (JStr app) = true ->
  foldl (probe_process c) st list =
    foldl (probe_process c) st
      (List.filter (fun e => negb (strict_eq (get e "name") (JStr app))) list).
Proof.
  intros X. revert st. induction list as [|e r IH]; intros st; simpl; [reflexivity|].
  destruct (strict_eq (get e "name") (JStr app)) eqn:E; simpl.
  - apply strict_eq_string in E. unfold probe_process at 2. rewrite E, X. apply IH.
  - apply IH.
Qed.

(** C8: a process named "pm2-health", or whose name is in the
    [appsExcluded] list, gets no alert: each of the three bus handlers
    returns before it builds one, whatever the channel an event of the
    process arrives on, and the probe evaluator passes over the process,
    adding no row and writing nothing to the history store, so that a pass
    comes out as if the process were not listed. *)
Theorem excluded_app_never_alerts (h : Health) (app : string) :
  app = "pm2-health"
  \/ (exists l, cfg_get (_config h) "appsExcluded" = JArr l /\ JStr app ∈ l) ->
  (forall data, get (get data "process") "name" = JStr app ->
     on_process_event h data = None
     /\ on_process_exception h data = None
     /\ on_process_msg h data = None
     /\ forall launch ch, bus_emit launch h ch data = None)
  /\ (forall e st, get e "name" = JStr app -> probe_process (_config h) st e = st)
  /\ (forall list,
        probe_list h list =
        probe_list h (List.filter (fun e => negb (strict_eq (get e "name") (JStr app))) list)).
Proof.
  intros X%isAppExcluded_spec. split; [|split].
  - intros data N.
    assert (on_process_event h data = None) as E1
      by (unfold on_process_event; now rewrite N, X, orb_true_r).
    assert (on_process_exception h data = None) as E2
      by (unfold on_process_exception; now rewrite N, X).
    assert (on_process_msg h data = None) as E3
      by (unfold on_process_msg; now rewrite N, X).
    refine (conj E1 (conj E2 (conj E3 _))).
    intros launch ch. unfold bus_emit.
    destruct (attached launch ch); [|reflexivity]. now destruct ch.
  - intros e st N. unfold probe_process. now rewrite N, X.
  - intros list. unfold probe_list. now apply excluded_entries_skipped.
Qed.

(** *** Event router *)

(** C2, as the code has it: a lifecycle event that is not manual, for a
    process that is not excluded, leads to an alert when [events] is not an
    array; when it is one, the empty one included, iff the name of the
    event is among its elements. *)
Theorem lifecycle_alert_iff (h : Health) (data : jsval) (event : string) :
  truthy (get data "manually") = false ->
  isAppExcluded (_config h) (get (get data "process") "name") = false ->
  get data "event" = JStr event ->
  is_Some (on_process_event h data) <->
    match cfg_get (_config h) "events" with
    | JArr l => JStr event ∈ l
    | _ => True
    end.
Proof.
  intros M X E. unfold on_process_event. rewrite M, X, E. simpl.
  destruct (cfg_get (_config h) "events") as [| | | | |l|]; simpl;
    try (split; [auto | intros _; eexists; reflexivity]).
  rewrite <- indexOf_string. destruct (indexOf l (JStr event) =? -1).
  - split; [intros [? [=]] | discriminate].
  - split; [reflexivity | intros _; eexists; reflexivity].
Qed.

(** *** Alert gate *)

(** C5: while the hold window is set and the time is before its end,
    [mail] does nothing: the mail collaborator is not called and the alert
    is gone. From the end of the window on, and when no hold is set, the
    mail collaborator is called. *)
Theorem mail_hold_gate (h : Health) (t : Z) (a : Alert) (sent : option exn) :
  (forall till, _holdTill h = Some (ValidDate till) -> t < till ->
     mail h t a sent = [])
  /\ (forall till, _holdTill h = Some (ValidDate till) -> till <= t ->
        Mail_send a ∈ mail h t a sent)
  /\ (_holdTill h = None -> Mail_send a ∈ mail h t a sent).
Proof.
  unfold mail. repeat split.
  - intros till -> L. simpl. now apply Z.ltb_lt in L as ->.
  - intros till -> L. simpl. apply Z.ltb_ge in L as ->. apply elem_of_cons. now left.
  - intros ->. apply elem_of_cons. now left.
Qed.

(** *** Operators *)

(** C10: [=] is strict equality and [!=] is the negation of loose
    equality, so neither is the negation of the other: on the number 5 and
    the string "5", which are loosely equal, both are false. *)
Theorem eq_and_ne_are_not_negations :
  StringToNumber "5" = 5%float ->
  own "=" OP = Some strict_eq
  /\ own "!=" OP = Some js_ne
  /\ (forall a b, js_ne a b = negb (loose_eq a b))
  /\ loose_eq (JNum 5) (JStr "5") = true
  /\ strict_eq (JNum 5) (JStr "5") = false
  /\ js_ne (JNum 5) (JStr "5") = false.
Proof.
  intros E. repeat split; try reflexivity.
  - unfold loose_eq. simpl. unfold ToNumber. simpl. now rewrite E.
  - unfold js_ne, loose_eq. simpl. unfold ToNumber. simpl. now rewrite E.
Qed.


(** *** Config merger *)

Lemma apply_key_fold (config : jsval) (ks : list string)
    (acc : gmap string jsval * list effect) (k : string) :
  (foldl (apply_key config) acc ks).1 !! k =
    if bool_decide (k ∈ ks) && truthy (get config k)
    then Some (get config k) else acc.1 !! k.
Proof.
  revert acc. induction ks as [|k' ks IH]; intros acc; simpl; [reflexivity|].
  rewrite IH. unfold apply_key.
  destruct (decide (k = k')) as [<-|N].
  - rewrite (bool_decide_eq_true_2 (k ∈ k :: ks)) by (apply elem_of_cons; now left).
    destruct (truthy (get config k)) eqn:T; simpl.
    + rewrite lookup_insert_eq. now destruct (bool_decide _).
    + now rewrite andb_false_r.
  - assert (bool_decide (k ∈ k' :: ks) = bool_decide (k ∈ ks)) as ->.
    { apply bool_decide_ext. rewrite elem_of_cons. intuition congruence. }
    destruct (bool_decide (k ∈ ks) && truthy (get config k)); [reflexivity|].
    destruct (truthy (get config k')); simpl; [|reflexivity].
    now rewrite lookup_insert_ne.
Qed.

Lemma configChanged_config (h : Health) : _config (configChanged h).1 = _config h.
Proof.
  unfold configChanged. destruct (as_array _); [|reflexivity].
  now destruct (compile_all _).
Qed.

(** The configuration a parsed payload leaves behind. *)
Lemma fetchConfig_parsed_config (h : Health) (config : jsval) :
  nullish (cfg_get (_config h) "webConfig") = false ->
  nullish config = false ->
  _config (fetchConfig h (parsed config)).1 = (apply_keys config (_config h)).1.
Proof.
  intros W N. unfold fetchConfig. rewrite W, N.
  pose proof (configChanged_config (with_config h (apply_keys config (_config h)).1)) as E.
  destruct (configChanged _) as [h' [ex|]]; exact E.
Qed.

(** The [metric] field is never missing: the constructor sets it, and a
    fetch only ever replaces it by a truthy value. The probe evaluator can
    read rules from it without a test. *)
Lemma Health_new_metric (c : gmap string jsval) (s : Snapshot) :
  truthy (cfg_get (_config (Health_new c s)) "metric") = true.
Proof.
  unfold Health_new. simpl.
  set (c1 := if nullish (cfg_get c "metricIntervalS") then _ else c).
  destruct (truthy (cfg_get c1 "metric")) eqn:T; simpl; [exact T|].
  unfold cfg_get. now rewrite lookup_insert_eq.
Qed.

Lemma fetchConfig_metric (h : Health) (r : fetched) :
  truthy (cfg_get (_config h) "metric") = true ->
  truthy (cfg_get (_config (fetchConfig h r).1) "metric") = true.
Proof.
  intros T.
  destruct (nullish (cfg_get (_config h) "webConfig")) eqn:W;
    [unfold fetchConfig; now rewrite W|].
  destruct r as [ex|ex|config]; try (unfold fetchConfig; now rewrite W).
  destruct (nullish config) eqn:N; [unfold fetchConfig; now rewrite W, N|].
  rewrite fetchConfig_parsed_config by assumption.
  unfold cfg_get, apply_keys. rewrite apply_key_fold.
  destruct (bool_decide _ && truthy (get config "metric")) eqn:B; [|exact T].
  now apply andb_true_iff in B.
Qed.

(** C7: applying a fetched payload overwrites the keys of [CONFIG_KEYS]
    that the payload holds with a truthy value, by that value, and leaves
    every other field of the configuration (a key the payload lacks, one it
    holds a falsy value for, one outside the list) as it was. *)
Theorem fetchConfig_overwrites_exactly (h : Health) (config : jsval) (k : string) :
  nullish (cfg_get (_config h) "webConfig") = false ->
  _config (fetchConfig h (parsed config)).1 !! k =
    if bool_decide (k ∈ CONFIG_KEYS) && truthy (get config k)
    then Some (get config k)
    else _config h !! k.
Proof.
  intros W. destruct (nullish config) eqn:N.
  - unfold fetchConfig. rewrite W, N. simpl.
    assert (get config k = JUndefined) as -> by (now destruct config).
    simpl. now rewrite andb_false_r.
  - rewrite fetchConfig_parsed_config by assumption. apply apply_key_fold.
Qed.

(** C3, as the code has it: whatever step fails, the error is caught and
    logged. When the transport or the parser fails, or the payload is
    [null], the state is left as it was. When compiling the exclusion
    patterns fails, the keys of the payload have been written before: the
    configuration is the one with them applied, and the list of compiled
    patterns is left empty. *)
Theorem fetchConfig_failure (h : Health) :
  (forall r,
     (exists ex, r = fetch_rejects ex \/ r = parse_throws ex)
     \/ (exists config, r = parsed config /\ nullish config = true) ->
     (fetchConfig h r).1 = h
     /\ exists out ex, (fetchConfig h r).2 = out ++ [error fetch_failed ex])
  /\ (forall config l ex,
        nullish (cfg_get (_config h) "webConfig") = false ->
        nullish config = false ->
        cfg_get (apply_keys config (_config h)).1 "messageExcludeExps" = JArr l ->
        compile_all l = inl ex ->
        _config (fetchConfig h (parsed config)).1 = (apply_keys config (_config h)).1
        /\ _messageExcludeExps (fetchConfig h (parsed config)).1 = []
        /\ exists out, (fetchConfig h (parsed config)).2 = out ++ [error fetch_failed ex]).
Proof.
  split.
  - intros r R. unfold fetchConfig.
    destruct (nullish (cfg_get (_config h) "webConfig")).
    + split; [reflexivity|]. now exists [], (TypeError "url").
    + destruct R as [[ex [-> | ->]] | [config [-> ->]]]; simpl;
        (split; [reflexivity|]); eexists [_; _], _; reflexivity.
  - intros config l ex W N A C.
    split; [now apply fetchConfig_parsed_config|].
    unfold fetchConfig. rewrite W, N. unfold configChanged. simpl.
    rewrite A. simpl. rewrite C. simpl. split; [reflexivity|].
    now eexists (_ :: _ :: _).
Qed.

End Claims.

(** ** Further properties of the code *)

(** A number is equal to no NaN. *)
Lemma eqb_nan (x y : float) : PrimFloat.is_nan y = true -> PrimFloat.eqb x y = false.
Proof.
  unfold PrimFloat.is_nan. intros N. apply negb_true_iff in N.
  rewrite FloatAxioms.eqb_spec in *. unfold SFeqb in *.
  destruct (Prim2SF y) as [s|s| |s m e]; simpl in N.
  - discriminate.
  - destruct s; discriminate.
  - now destruct (Prim2SF x).
  - rewrite Z.compare_refl, Pos.compare_cont_refl in N. destruct s; discriminate.
Qed.

Section Extras.
Context `{JsEngine} `{SnapshotStore}.

Lemma ToPrimitive_idem (v : jsval) : ToPrimitive (ToPrimitive v) = ToPrimitive v.
Proof. now destruct v. Qed.

Lemma ToNumber_ToPrimitive (v : jsval) : ToNumber (ToPrimitive v) = ToNumber v.
Proof. unfold ToNumber. now rewrite ToPrimitive_idem. Qed.

Lemma IsLessThan_nan_r (x : float) (t : jsval) :
  PrimFloat.is_nan (ToNumber t) = true -> IsLessThan (JNum x) t = None.
Proof.
  intros N. rewrite <- ToNumber_ToPrimitive in N. unfold IsLessThan.
  change (ToPrimitive (JNum x)) with (JNum x).
  destruct (ToPrimitive t); rewrite N, orb_true_r; reflexivity.
Qed.

Lemma IsLessThan_nan_l (x : float) (t : jsval) :
  PrimFloat.is_nan (ToNumber t) = true -> IsLessThan t (JNum x) = None.
Proof.
  intros N. rewrite <- ToNumber_ToPrimitive in N. unfold IsLessThan.
  change (ToPrimitive (JNum x)) with (JNum x).
  destruct (ToPrimitive t); rewrite N; reflexivity.
Qed.

Lemma loose_eq_nan (x : float) (t : jsval) :
  PrimFloat.is_nan (ToNumber t) = true -> loose_eq (JNum x) t = false.
Proof.
  intros N. destruct t as [| |b|y|s|l|ps]; try reflexivity.
  - destruct b; discriminate.
  - simpl. now apply eqb_nan.
  - simpl. now apply eqb_nan.
  - unfold loose_eq. simpl. unfold ToNumber in *. simpl in *. now apply eqb_nan.
  - unfold loose_eq. simpl. unfold ToNumber in *. simpl in *. now apply eqb_nan.
Qed.

Lemma OP_get_operator (k : string) (f : jsval -> jsval -> bool) :
  OP_get (JStr k) = Some f ->
  (k = "<" /\ f = js_lt) \/ (k = ">" /\ f = js_gt) \/ (k = "=" /\ f = strict_eq)
  \/ (k = "<=" /\ f = js_le) \/ (k = ">=" /\ f = js_ge) \/ (k = "!=" /\ f = js_ne).
Proof.
  unfold OP_get, OP. simpl.
  repeat (destruct (String.eqb k _) eqn:E;
          [apply String.eqb_eq in E; intros [= <-]; tauto | clear E]).
  discriminate.
Qed.

(** What a rule that is not [direct] is tested on is a number, and no NaN. *)
Lemma coerce_number (probe value v : jsval) :
  truthy (get probe "direct") = false ->
  coerce probe value = Some v ->
  exists x, v = JNum x /\ PrimFloat.is_nan x = false.
Proof.
  unfold coerce. intros ->. cbn [negb].
  destruct (PrimFloat.is_nan (Number_parseFloat value)) eqn:N; [discriminate|].
  intros [= <-]. eauto.
Qed.

(** X1: a rule that is not [direct], whose [target] is set but does not
    convert to a number, never tests true under [<], [>], [<=], [>=] or
    [=], and tests true on every value under [!=]. *)
Theorem target_not_a_number (probe value v : jsval) (k : string) :
  truthy (get probe "direct") = false ->
  get probe "op" = JStr k ->
  nullish (get probe "target") = false ->
  PrimFloat.is_nan (ToNumber (get probe "target")) = true ->
  coerce probe value = Some v ->
  threshold probe v = (if String.eqb k "!=" then Some true
                       else if bool_decide (k ∈ ["<"; ">"; "="; "<="; ">="]) then Some false
                       else None).
Proof.
  intros D K T N C. destruct (coerce_number _ _ _ D C) as (x & -> & _).
  unfold threshold. rewrite K, loose_eq_null, T.
  destruct (OP_get (JStr k)) as [f|] eqn:F.
  - assert (truthy (JStr k) = true) as -> by
      (destruct k; [discriminate F | reflexivity]).
    apply OP_get_operator in F as [[-> ->]|[[-> ->]|[[-> ->]|[[-> ->]|[[-> ->]|[-> ->]]]]]];
      simpl; f_equal.
    + unfold js_lt. now rewrite IsLessThan_nan_r.
    + unfold js_gt. now rewrite IsLessThan_nan_l.
    + destruct (get probe "target") as [| | |y| | |]; try reflexivity. simpl. now apply eqb_nan.
    + unfold js_le. now rewrite IsLessThan_nan_l.
    + unfold js_ge. now rewrite IsLessThan_nan_r.
    + unfold js_ne. now rewrite loose_eq_nan.
  - transitivity (@None bool); [now destruct (truthy (JStr k))|].
    unfold OP_get, OP in F. simpl in F.
    destruct (String.eqb k "<") eqn:E1; [discriminate|].
    destruct (String.eqb k ">") eqn:E2; [discriminate|].
    destruct (String.eqb k "=") eqn:E3; [discriminate|].
    destruct (String.eqb k "<=") eqn:E4; [discriminate|].
    destruct (String.eqb k ">=") eqn:E5; [discriminate|].
    destruct (String.eqb k "!=") eqn:E6; [discriminate|].
    rewrite bool_decide_eq_false_2; [reflexivity|].
    rewrite !elem_of_cons, elem_of_nil.
    apply String.eqb_neq in E1, E2, E3, E4, E5. tauto.
Qed.

(** *** Sequences of fetches *)

Lemma fetchConfig_unconfigured (h : Health) (r : fetched) :
  nullish (cfg_get (_config h) "webConfig") = true -> (fetchConfig h r).1 = h.
Proof. intros W. unfold fetchConfig. now rewrite W. Qed.

(** One fetch, field by field. *)
Lemma fetchConfig_lookup (h : Health) (r : fetched) (k : string) :
  nullish (cfg_get (_config h) "webConfig") = false ->
  _config (fetchConfig h r).1 !! k = from_option Some (_config h !! k) (offered k r).
Proof.
  intros W. destruct r as [ex|ex|config]; try (unfold fetchConfig; now rewrite W).
  destruct (nullish config) eqn:N.
  - unfold fetchConfig. rewrite W, N. simpl.
    assert (get config k = JUndefined) as -> by now destruct config.
    simpl. now rewrite andb_false_r.
  - rewrite fetchConfig_parsed_config by assumption.
    unfold apply_keys. rewrite apply_key_fold. unfold offered.
    now destruct (bool_decide _ && truthy _).
Qed.

Lemma fetchConfig_frame (h : Health) (r : fetched) (k : string) :
  k ∉ CONFIG_KEYS -> _config (fetchConfig h r).1 !! k = _config h !! k.
Proof.
  intros K. destruct (nullish (cfg_get (_config h) "webConfig")) eqn:W.
  - now rewrite fetchConfig_unconfigured.
  - rewrite fetchConfig_lookup by assumption.
    destruct r as [ex|ex|config]; try reflexivity.
    unfold offered. now rewrite bool_decide_eq_false_2.
Qed.

Lemma fetchConfig_webConfig (h : Health) (r : fetched) :
  cfg_get (_config (fetchConfig h r).1) "webConfig" = cfg_get (_config h) "webConfig".
Proof.
  unfold cfg_get. rewrite fetchConfig_frame; [reflexivity|].
  unfold CONFIG_KEYS. rewrite !elem_of_cons, elem_of_nil.
  intros [E|[E|[E|[E|[E|[E|[E|[E|[]]]]]]]]]; discriminate E.
Qed.

Lemma fetchConfig_other_fields (h : Health) (r : fetched) :
  _holdTill (fetchConfig h r).1 = _holdTill h
  /\ _snapshot (fetchConfig h r).1 = _snapshot h.
Proof.
  unfold fetchConfig. destruct (nullish _); [auto|].
  destruct r as [ex|ex|config]; auto.
  destruct (nullish config); [auto|].
  unfold configChanged. destruct (as_array _) as [l|]; [|auto].
  destruct (compile_all l); auto.
Qed.

(** X2: over any sequence of fetches, whatever each comes back with, every
    field of the configuration holds the value of the latest fetch that
    had one for it (a key of [CONFIG_KEYS], truthy in a parsed payload),
    and its first value when none had. *)
Theorem latest_payload_wins (h : Health) (rs : list fetched) (k : string) :
  nullish (cfg_get (_config h) "webConfig") = false ->
  _config (fetch_all h rs) !! k =
    foldl (fun held r => from_option Some held (offered k r)) (_config h !! k) rs.
Proof.
  revert h. induction rs as [|r rs IH]; intros h W; [reflexivity|].
  unfold fetch_all in *. simpl. rewrite IH by now rewrite fetchConfig_webConfig.
  now rewrite fetchConfig_lookup.
Qed.

Lemma fetch_all_truthy (h : Health) (rs : list fetched) (k : string) :
  truthy (cfg_get (_config h) k) = true ->
  truthy (cfg_get (_config (fetch_all h rs)) k) = true.
Proof.
  revert h. induction rs as [|r rs IH]; intros h T; [exact T|].
  unfold fetch_all in *. simpl. apply IH.
  destruct (nullish (cfg_get (_config h) "webConfig")) eqn:W.
  - now rewrite fetchConfig_unconfigured.
  - unfold cfg_get. rewrite fetchConfig_lookup by assumption.
    destruct r as [ex|ex|config]; try exact T. unfold offered.
    destruct (bool_decide _ && truthy (get config k)) eqn:B; [|exact T].
    now apply andb_true_iff in B.
Qed.

(** X3: a field of the configuration that is truthy is truthy after any
    sequence of fetches, and a value a payload holds falsy ([false], 0,
    the empty string, [null]) is never written: the field keeps the value
    it had. A payload can so replace a truthy value by another truthy one
    only. *)
Theorem fetch_never_unsets (h : Health) (rs : list fetched) (k : string) :
  truthy (cfg_get (_config h) k) = true ->
  truthy (cfg_get (_config (fetch_all h rs)) k) = true
  /\ forall config, truthy (get config k) = false ->
       _config (fetchConfig h (parsed config)).1 !! k = _config h !! k.
Proof.
  intros T. split; [now apply fetch_all_truthy|].
  intros config F. destruct (nullish (cfg_get (_config h) "webConfig")) eqn:W.
  - now rewrite fetchConfig_unconfigured.
  - rewrite fetchConfig_lookup by assumption. unfold offered.
    now rewrite F, andb_false_r.
Qed.

Lemma fetch_all_frame (h : Health) (rs : list fetched) (k : string) :
  k ∉ CONFIG_KEYS -> _config (fetch_all h rs) !! k = _config h !! k.
Proof.
  intros K. revert h. induction rs as [|r rs IH]; intros h; [reflexivity|].
  unfold fetch_all in *. simpl. now rewrite IH, fetchConfig_frame.
Qed.

Lemma fetch_all_interval (h : Health) (rs : list fetched) :
  nullish (cfg_get (_config h) "metricIntervalS") = false ->
  nullish (cfg_get (_config (fetch_all h rs)) "metricIntervalS") = false.
Proof.
  revert h. induction rs as [|r rs IH]; intros h N; [exact N|].
  unfold fetch_all in *. simpl. apply IH.
  destruct (nullish (cfg_get (_config h) "webConfig")) eqn:W.
  - now rewrite fetchConfig_unconfigured.
  - unfold cfg_get. rewrite fetchConfig_lookup by assumption.
    destruct r as [ex|ex|config]; try exact N. unfold offered.
    destruct (bool_decide _ && truthy (get config "metricIntervalS")) eqn:B; [|exact N].
    apply andb_true_iff in B as [_ B]. simpl.
    now destruct (get config "metricIntervalS").
Qed.

(** X4: from the constructor on, through any sequence of fetches, the
    [metric] field is truthy, [metricIntervalS] is neither [null] nor
    [undefined], and the fields outside [CONFIG_KEYS] are those of the
    configuration file. *)
Theorem configuration_invariants (c : gmap string jsval) (s : Snapshot)
    (rs : list fetched) :
  truthy (cfg_get (_config (fetch_all (Health_new c s) rs)) "metric") = true
  /\ nullish (cfg_get (_config (fetch_all (Health_new c s) rs)) "metricIntervalS") = false
  /\ forall k, k ∉ CONFIG_KEYS -> _config (fetch_all (Health_new c s) rs) !! k = c !! k.
Proof.
  split; [apply fetch_all_truthy, Health_new_metric|].
  split.
  - apply fetch_all_interval. unfold Health_new. simpl.
    set (c1 := if nullish (cfg_get c "metricIntervalS") then _ else c).
    assert (nullish (cfg_get c1 "metricIntervalS") = false) as N1.
    { subst c1. destruct (nullish (cfg_get c "metricIntervalS")) eqn:N; [|exact N].
      unfold cfg_get. now rewrite lookup_insert_eq. }
    destruct (negb (truthy (cfg_get c1 "metric"))); [|exact N1].
    unfold cfg_get in *. now rewrite lookup_insert_ne.
  - intros k K. rewrite fetch_all_frame by assumption. unfold Health_new. simpl.
    assert (k <> "metricIntervalS" /\ k <> "metric") as [K1 K2].
    { split; intros ->; apply K; unfold CONFIG_KEYS; rewrite !elem_of_cons; tauto. }
    destruct (negb _); destruct (nullish _);
      rewrite ?lookup_insert_ne by congruence; reflexivity.
Qed.


Lemma configChanged_idempotent (h : Health) :
  (configChanged (configChanged h).1).1 = (configChanged h).1.
Proof.
  unfold configChanged.
  destruct (as_array (cfg_get (_config h) "messageExcludeExps")) as [l|] eqn:A;
    [destruct (compile_all l) eqn:C|]; simpl; rewrite A, ?C; reflexivity.
Qed.

Lemma with_config_same (h : Health) : with_config h (_config h) = h.
Proof. now destruct h. Qed.

(** X5: fetching the same thing twice in a row leaves the state the first
    fetch left. *)
Theorem fetchConfig_idempotent (h : Health) (r : fetched) :
  (fetchConfig (fetchConfig h r).1 r).1 = (fetchConfig h r).1.
Proof.
  assert ((fetchConfig h r).1 = h ->
          (fetchConfig (fetchConfig h r).1 r).1 = (fetchConfig h r).1) as same
    by (intros E; rewrite E; exact E).
  destruct (nullish (cfg_get (_config h) "webConfig")) eqn:W.
  { now apply same, fetchConfig_unconfigured. }
  destruct r as [ex|ex|config];
    try (apply same; unfold fetchConfig; now rewrite W).
  destruct (nullish config) eqn:N.
  { apply same. unfold fetchConfig. now rewrite W, N. }
  clear same. set (h1 := (fetchConfig h (parsed config)).1).
  assert (nullish (cfg_get (_config h1) "webConfig") = false) as W1
    by (subst h1; now rewrite fetchConfig_webConfig).
  assert ((apply_keys config (_config h1)).1 = _config h1) as A.
  { apply map_eq. intros k. unfold apply_keys. rewrite apply_key_fold.
    destruct (bool_decide _ && truthy (get config k)) eqn:B; [|reflexivity].
    subst h1. rewrite fetchConfig_lookup by assumption. unfold offered. now rewrite B. }
  assert (h1 = (configChanged (with_config h (_config h1))).1) as E1.
  { subst h1. rewrite fetchConfig_parsed_config by assumption.
    unfold fetchConfig. rewrite W, N.
    now destruct (configChanged _) as [h' [ex|]]. }
  unfold fetchConfig at 1. rewrite W1, N, A, with_config_same.
  assert ((configChanged h1).1 = h1) as E2
    by (rewrite E1; apply configChanged_idempotent).
  now destruct (configChanged h1) as [h' [ex|]].
Qed.

Lemma apply_key_fold_log (config : jsval) (ks : list string)
    (acc : gmap string jsval * list effect) :
  (foldl (apply_key config) acc ks).2 =
    acc.2 ++ ((fun k => info ("applying [" +:+ k +:+ "]"))
                <$> List.filter (fun k => truthy (get config k)) ks).
Proof.
  revert acc. induction ks as [|k ks IH]; intros acc; simpl.
  - now rewrite app_nil_r.
  - rewrite IH. unfold apply_key.
    destruct (truthy (get config k)); simpl; [|reflexivity].
    now rewrite <- app_assoc.
Qed.

(** X6: a fetch that fails nowhere logs, after the two lines of the
    request, one line "applying [key]" for each key of [CONFIG_KEYS] the
    payload holds truthy, in the order of [CONFIG_KEYS] whatever the order
    of the payload, and nothing else. *)
Theorem fetchConfig_log (h : Health) (config : jsval) :
  nullish (cfg_get (_config h) "webConfig") = false ->
  nullish config = false ->
  (configChanged (with_config h (apply_keys config (_config h)).1)).2 = None ->
  drop 2 (fetchConfig h (parsed config)).2 =
    (fun k => info ("applying [" +:+ k +:+ "]"))
      <$> List.filter (fun k => truthy (get config k)) CONFIG_KEYS.
Proof.
  intros W N C. unfold fetchConfig. rewrite W, N.
  destruct (configChanged _) as [h' [ex|]]; [discriminate C|]. simpl.
  unfold apply_keys. now rewrite apply_key_fold_log.
Qed.

(** *** Messages *)

Lemma compile_all_each (l : list jsval) (rs : list RegExp) :
  compile_all l = inr rs -> Forall2 (fun e re => new_RegExp e = Some re) l rs.
Proof.
  revert rs. induction l as [|e l IH]; intros rs; simpl.
  - intros [= <-]. constructor.
  - destruct (new_RegExp e) as [re|] eqn:E; [|discriminate].
    destruct (compile_all l) as [ex|rs']; [discriminate|].
    intros [= <-]. constructor; auto.
Qed.

Lemma on_process_msg_iff (h : Health) (data : jsval) :
  is_Some (on_process_msg h data) <->
    isAppExcluded (_config h) (get (get data "process") "name") = false
    /\ Forall (fun re => RegExp_test re (JSON_stringify (get data "data")) = false)
         (_messageExcludeExps h).
Proof.
  unfold on_process_msg.
  destruct (isAppExcluded _ _); [split; [intros [? [=]] | intros [[=] _]]|].
  destruct (existsb _ _) eqn:E.
  - split; [intros [? [=]]|]. intros [_ F].
    apply existsb_exists in E as (re & I & T).
    rewrite Forall_forall in F. apply list_elem_of_In in I. rewrite (F _ I) in T. discriminate.
  - split; [|intros _; eexists; reflexivity]. intros _. split; [reflexivity|].
    apply Forall_forall. intros re I. apply list_elem_of_In in I.
    destruct (RegExp_test re _) eqn:T; [|reflexivity].
    assert (existsb (fun e => RegExp_test e (JSON_stringify (get data "data")))
              (_messageExcludeExps h) = true) as E' by (apply existsb_exists; eauto).
    congruence.
Qed.

(** X7: the exclusion patterns of a fetched payload are in force as soon as
    the fetch has applied them: the compiled list is the payload's list,
    pattern by pattern, and from then on a [process:msg] event leads to an
    alert iff the message handler was attached when the bus was launched
    ([messages] truthy then), its process is not excluded and none of these
    patterns matches the JSON text of its data. *)
Theorem fetched_patterns_in_force (launch h : Health) (config : jsval) (l : list jsval)
    (rs : list RegExp) :
  nullish (cfg_get (_config h) "webConfig") = false ->
  get config "messageExcludeExps" = JArr l ->
  compile_all l = inr rs ->
  _messageExcludeExps (fetchConfig h (parsed config)).1 = rs
  /\ Forall2 (fun e re => new_RegExp e = Some re) l rs
  /\ forall data,
       is_Some (bus_emit launch (fetchConfig h (parsed config)).1 process_msg data) <->
         truthy (cfg_get (_config launch) "messages") = true
         /\ isAppExcluded (_config (fetchConfig h (parsed config)).1)
              (get (get data "process") "name") = false
         /\ Forall (fun re => RegExp_test re (JSON_stringify (get data "data")) = false) rs.
Proof.
  intros W G C.
  assert (nullish config = false) as N by (destruct config; try reflexivity; discriminate G).
  assert (cfg_get (apply_keys config (_config h)).1 "messageExcludeExps" = JArr l) as A.
  { unfold cfg_get, apply_keys. rewrite apply_key_fold, G. reflexivity. }
  assert (_messageExcludeExps (fetchConfig h (parsed config)).1 = rs) as E.
  { unfold fetchConfig. rewrite W, N. unfold configChanged. simpl. rewrite A. simpl.
    now rewrite C. }
  split; [exact E|]. split; [now apply compile_all_each|].
  intros data. unfold bus_emit, attached.
  destruct (truthy (cfg_get (_config launch) "messages")).
  - rewrite on_process_msg_iff, E. tauto.
  - split; [intros [? [=]] | intros [[=] _]].
Qed.

(** X8: when a pattern of a fetched payload does not compile, no pattern is
    left in force, the ones that were before included: where the message
    handler is attached, every [process:msg] event of a process that is not
    excluded leads to an alert. *)
Theorem failed_pattern_lifts_exclusion (launch h : Health) (config : jsval)
    (l : list jsval) (ex : exn) (data : jsval) :
  truthy (cfg_get (_config launch) "messages") = true ->
  nullish (cfg_get (_config h) "webConfig") = false ->
  get config "messageExcludeExps" = JArr l ->
  compile_all l = inl ex ->
  isAppExcluded (_config (fetchConfig h (parsed config)).1)
    (get (get data "process") "name") = false ->
  is_Some (bus_emit launch (fetchConfig h (parsed config)).1 process_msg data).
Proof.
  intros L W G C X.
  assert (nullish config = false) as N by (destruct config; try reflexivity; discriminate G).
  assert (cfg_get (apply_keys config (_config h)).1 "messageExcludeExps" = JArr l) as A.
  { unfold cfg_get, apply_keys. rewrite apply_key_fold, G. reflexivity. }
  unfold bus_emit, attached. rewrite L.
  apply on_process_msg_iff. split; [exact X|].
  assert (_messageExcludeExps (fetchConfig h (parsed config)).1 = []) as ->; [|constructor].
  unfold fetchConfig. rewrite W, N. unfold configChanged. simpl. rewrite A. simpl.
  now rewrite C.
Qed.

(** X9: [messageExcludeExps] counts only as an array. With any other value,
    a single pattern string included, [configChanged] compiles nothing and
    does not fail, and no message is excluded for its text. *)
Theorem patterns_must_be_an_array (h : Health) (data : jsval) :
  as_array (cfg_get (_config h) "messageExcludeExps") = None ->
  (configChanged h).2 = None
  /\ _messageExcludeExps (configChanged h).1 = []
  /\ (isAppExcluded (_config h) (get (get data "process") "name") = false ->
      is_Some (on_process_msg (configChanged h).1 data)).
Proof.
  intros A. unfold configChanged. rewrite A. simpl.
  split; [reflexivity|]. split; [reflexivity|].
  intros X. apply on_process_msg_iff. simpl. split; [exact X | constructor].
Qed.

(** *** The hold window *)

Lemma mail_muted (h : Health) (t : Z) (a : Alert) (sent : option exn) :
  mail h t a sent =
    if muted h t then []
    else Mail_send a :: match sent with
                        | None => [info ("mail send: " +:+ subject a)]
                        | Some ex => [error "mail failed: " ex]
                        end.
Proof. reflexivity. Qed.

(** X10: after [hold] at time [now] for [n] minutes (30 when none is given),
    an alert at time [t] is dropped iff [t] is before [now + n * 60000],
    whatever was held before; a negative [n] so mutes nothing from [now]
    on. When that time is beyond the range of a [Date], nothing is muted.
    After [unhold] nothing is muted. *)
Theorem hold_window (h : Health) (now : Z) (n : option Z) (t : Z) (a : Alert)
    (sent : option exn) :
  (Z.abs (now + default HOLD_PERIOD_M n * 60000) <= 8640000000000000 ->
     (mail (hold h now n) t a sent = [] <-> t < now + default HOLD_PERIOD_M n * 60000))
  /\ (8640000000000000 < Z.abs (now + default HOLD_PERIOD_M n * 60000) ->
        Mail_send a ∈ mail (hold h now n) t a sent)
  /\ Mail_send a ∈ mail (unhold (hold h now n)) t a sent.
Proof.
  rewrite !mail_muted. unfold muted, hold, unhold, TimeClip. simpl.
  split; [|split].
  - intros R. apply Z.leb_le in R. rewrite R. simpl.
    destruct (t <? _) eqn:L.
    + apply Z.ltb_lt in L. tauto.
    + apply Z.ltb_ge in L. split; [discriminate | lia].
  - intros R. apply Z.leb_gt in R. rewrite R. simpl. apply elem_of_cons. now left.
  - apply elem_of_cons. now left.
Qed.


(** *** One pass *)

Lemma sends_console (lines : list string) :
  List.filter sends (console_error <$> lines) = [].
Proof. induction lines as [|x r IH]; [reflexivity | exact IH]. Qed.

(** X11: a pass over a process list calls the mail collaborator at most once:
    once, with the table of all the rows raised, when there are rows and
    [mail] is not muted, and not at all otherwise. The state it leaves
    differs from the one before by the history store only, and the store
    and the rows are the same whether a hold is set or not. *)
Theorem one_mail_per_pass (h : Health) (t : Z) (list : list jsval) (sent : option exn) :
  exists out,
    testProbes h t (inr list) sent =
      continues (with_snapshot h (send (snapshot (probe_list h list)))) out
    /\ List.filter sends out =
         (if bool_decide (alerts (probe_list h list) = []) || muted h t then []
          else [Mail_send (table_alert (alerts (probe_list h list)))])
    /\ forall d, probe_list (with_holdTill h d) list = probe_list h list.
Proof.
  eexists. split; [reflexivity|]. split; [|reflexivity].
  rewrite !List.filter_app, sends_console. simpl.
  destruct (alerts (probe_list h list)) as [|row rows] eqn:A; [reflexivity|].
  rewrite bool_decide_eq_false_2 by discriminate.
  change (0 <? Z.of_nat (length (row :: rows))) with true. cbv iota.
  rewrite mail_muted. simpl. destruct (muted h t); [reflexivity|].
  simpl. now destruct sent.
Qed.

Lemma probe_metric_grows (c : gmap string jsval) (e monit : jsval) (st : pass)
    (key : string) :
  exists rows lines,
    alerts (probe_metric c e monit st key) = alerts st ++ rows
    /\ console (probe_metric c e monit st key) = console st ++ lines
    /\ (length rows + length lines <= 1)%nat.
Proof.
  unfold probe_metric. destruct (strict_eq _ _).
  { exists [], []. rewrite !app_nil_r. split; [reflexivity|split; [reflexivity|simpl; lia]]. }
  destruct (coerce _ _) as [v|]; simpl.
  - destruct (alert_due _ _ _ _).
    + eexists [_], []. rewrite app_nil_r.
      split; [reflexivity|split; [reflexivity|simpl; lia]].
    + exists [], []. rewrite !app_nil_r.
      split; [reflexivity|split; [reflexivity|simpl; lia]].
  - eexists [], [_]. rewrite app_nil_r.
    split; [reflexivity|split; [reflexivity|simpl; lia]].
Qed.

Lemma probe_metrics_grow (c : gmap string jsval) (e monit : jsval) (ks : list string)
    (st : pass) :
  exists rows lines,
    alerts (foldl (probe_metric c e monit) st ks) = alerts st ++ rows
    /\ console (foldl (probe_metric c e monit) st ks) = console st ++ lines
    /\ (length rows + length lines <= length ks)%nat.
Proof.
  revert st. induction ks as [|k ks IH]; intros st; simpl.
  - exists [], []. rewrite !app_nil_r. split; [reflexivity|split; [reflexivity|simpl; lia]].
  - destruct (IH (probe_metric c e monit st k)) as (rows & lines & A & C & L).
    destruct (probe_metric_grows c e monit st k) as (rows1 & lines1 & A1 & C1 & L1).
    exists (rows1 ++ rows), (lines1 ++ lines).
    rewrite A, C, A1, C1, <- !app_assoc, !length_app.
    split; [reflexivity|split; [reflexivity|lia]].
Qed.

(** X12: a process adds to a pass, after what is there, at most one thing
    for each of its metrics, a row of the alert table or a console line
    for a value that is no number; the rows and lines gathered before are
    kept, in their order. *)
Theorem process_adds_one_per_metric (c : gmap string jsval) (st : pass) (e : jsval) :
  exists rows lines,
    alerts (probe_process c st e) = alerts st ++ rows
    /\ console (probe_process c st e) = console st ++ lines
    /\ (length rows + length lines <= length (keys (monit_of e)))%nat.
Proof.
  unfold probe_process. destruct (isAppExcluded _ _).
  - exists [], []. rewrite !app_nil_r. split; [reflexivity|split; [reflexivity|simpl; lia]].
  - apply probe_metrics_grow.
Qed.

(** *** The metrics of a process *)

Lemma keys_set_prop (ps : list (string * jsval)) (k : string) (v : jsval) :
  keys (JObj ps) `prefix_of` keys (set_prop (JObj ps) k v).
Proof.
  simpl. induction ps as [|[k' v'] r IH]; simpl.
  - apply prefix_nil.
  - destruct (String.eqb k k') eqn:E; simpl.
    + apply String.eqb_eq in E as ->. reflexivity.
    + now apply prefix_cons.
Qed.

(** X13: the metrics an application reports are evaluated as reported, in
    the order reported and before the built-in ones, except under the four
    names [memory], [cpu], [pm2] and [node]: a reported metric called
    [memory] or [cpu] is replaced by the figures of the process. *)
Theorem reported_metrics_kept (e : jsval) (ps : list (string * jsval)) :
  get (get e "pm2_env") "axm_monitor" = JObj ps ->
  (forall key, key ∉ builtin_metrics -> get (monit_of e) key = get (JObj ps) key)
  /\ keys (JObj ps) `prefix_of` keys (monit_of e)
  /\ (truthy (get e "monit") = true ->
      get (get (monit_of e) "memory") "value"
        = JNum (ToNumber (get (get e "monit") "memory") / 1048576)
      /\ get (get (monit_of e) "cpu") "value" = get (get e "monit") "cpu").
Proof.
  intros M. unfold monit_of. rewrite M. simpl (truthy (JObj ps)). cbv iota.
  assert (truthy (get e "pm2_env") = true) as ->
    by (destruct (get e "pm2_env"); try discriminate M; reflexivity).
  set (memory := JObj [("value", JNum (ToNumber (get (get e "monit") "memory") / 1048576))]).
  set (cpu := JObj [("value", get (get e "monit") "cpu")]).
  set (pm2 := JObj [("value", get (get e "pm2_env") "_pm2_version"); ("direct", JBool true)]).
  set (node := JObj [("value", get (get e "pm2_env") "node_version"); ("direct", JBool true)]).
  set (monit2 := if truthy (get e "monit")
                 then set_prop (set_prop (JObj ps) "memory" memory) "cpu" cpu
                 else JObj ps).
  assert (exists ps2, monit2 = JObj ps2) as [ps2 O2].
  { subst monit2. destruct (truthy (get e "monit")); [|eauto].
    apply is_object_set_prop, is_object_set_prop; eauto. }
  assert (forall key, key <> "memory" -> key <> "cpu" ->
            get monit2 key = get (JObj ps) key) as G2.
  { intros key K1 K2. subst monit2. destruct (truthy (get e "monit")); [|reflexivity].
    now rewrite !get_set_prop_other by congruence. }
  assert (keys (JObj ps) `prefix_of` keys monit2) as P2.
  { subst monit2. destruct (truthy (get e "monit")); [|reflexivity].
    etransitivity; [apply (keys_set_prop ps "memory" memory)|].
    destruct (is_object_set_prop (JObj ps) "memory" memory) as [q Q]; [eauto|].
    rewrite Q. apply keys_set_prop. }
  assert (truthy (get e "monit") = true ->
          get (get monit2 "memory") "value"
            = JNum (ToNumber (get (get e "monit") "memory") / 1048576)
          /\ get (get monit2 "cpu") "value" = get (get e "monit") "cpu") as V2.
  { intros T. subst monit2. rewrite T. split.
    - rewrite get_set_prop_other by discriminate.
      rewrite get_set_prop_same by eauto. reflexivity.
    - rewrite get_set_prop_same; [reflexivity|]. apply is_object_set_prop; eauto. }
  clearbody monit2.
  set (monit3 := if truthy (get (get e "pm2_env") "_pm2_version")
                 then set_prop monit2 "pm2" pm2 else monit2).
  assert (exists ps3, monit3 = JObj ps3) as [ps3 O3].
  { subst monit3. destruct (truthy (get (get e "pm2_env") "_pm2_version")); [|eauto].
    apply is_object_set_prop; eauto. }
  assert (forall key, key <> "pm2" -> get monit3 key = get monit2 key) as G3.
  { intros key K. subst monit3.
    destruct (truthy (get (get e "pm2_env") "_pm2_version")); [|reflexivity].
    now rewrite get_set_prop_other by congruence. }
  assert (keys monit2 `prefix_of` keys monit3) as P3.
  { subst monit3. destruct (truthy (get (get e "pm2_env") "_pm2_version")); [|reflexivity].
    rewrite O2. apply keys_set_prop. }
  clearbody monit3.
  assert (forall key, key <> "node" ->
            get (if truthy (get (get e "pm2_env") "node_version")
                 then set_prop monit3 "node" node else monit3) key = get monit3 key) as G4.
  { intros key K. destruct (truthy (get (get e "pm2_env") "node_version")); [|reflexivity].
    now rewrite get_set_prop_other by congruence. }
  split; [|split].
  - intros key K. unfold builtin_metrics in K. rewrite !elem_of_cons, elem_of_nil in K.
    rewrite G4, G3, G2 by (intros ->; tauto). reflexivity.
  - etransitivity; [exact P2|]. etransitivity; [exact P3|].
    destruct (truthy (get (get e "pm2_env") "node_version")); [|reflexivity].
    rewrite O3. apply keys_set_prop.
  - intros T. rewrite !G4, !G3 by discriminate. now apply V2.
Qed.


(** *** Start-up *)

(** X14: the constructor succeeds iff the configuration holds truthy [smtp],
    [smtp.host] and [mailTo]; [smtp.port] is never asked for (its check
    tests [smtp] again), so no configuration is refused for its port. On
    success the state is the one with the two defaults set. *)
Theorem constructor_requirements (c : gmap string jsval) (file : option string)
    (s : Snapshot) :
  ((exists m, Health_constructor c file s = inr (Health_new c s, m)) <->
     truthy (cfg_get c "smtp") = true
     /\ truthy (get (cfg_get c "smtp") "host") = true
     /\ truthy (cfg_get c "mailTo") = true)
  /\ Health_constructor c file s <> inl "[smtp.port] not set"
  /\ (forall h m, Health_constructor c file s = inr (h, m) ->
        h = Health_new c s
        /\ _template m = default default_template file).
Proof.
  assert (forall k, k <> "metricIntervalS" -> k <> "metric" ->
            cfg_get (_config (Health_new c s)) k = cfg_get c k) as F.
  { intros k K1 K2. unfold Health_new, cfg_get. simpl.
    destruct (negb _); destruct (nullish _);
      rewrite ?lookup_insert_ne by congruence; reflexivity. }
  unfold Health_constructor, Mail_new.
  rewrite !(F "smtp"), (F "mailTo") by discriminate.
  destruct (truthy (cfg_get c "smtp")); simpl.
  2: { split; [|split]; [split|..]; [intros [? [=]] | intros [[=] _] | discriminate
                                    | intros ? ? [=]]. }
  destruct (truthy (get (cfg_get c "smtp") "host")); simpl.
  2: { split; [|split]; [split|..]; [intros [? [=]] | intros (_ & [=] & _) | discriminate
                                    | intros ? ? [=]]. }
  destruct (truthy (cfg_get c "mailTo")); simpl.
  2: { split; [|split]; [split|..]; [intros [? [=]] | intros (_ & _ & [=]) | discriminate
                                    | intros ? ? [=]]. }
  destruct file as [text|]; simpl;
    (split; [|split]; [split; [auto | intros _; eexists; reflexivity] | discriminate
                      | intros ? ? [= <- <-]; auto]).
Qed.

(** X15: [go] fails before it connects in one case only, a pattern of the
    local [messageExcludeExps] that does not compile; then nothing is
    fetched. Otherwise it gets to [PM2.connect] whatever the first fetch
    comes back with, a failure included. *)
Theorem go_rejects_iff (h : Health) (r : fetched) :
  ((exists ex out, go h r = go_rejects ex out) <->
     exists l ex, cfg_get (_config h) "messageExcludeExps" = JArr l
                  /\ compile_all l = inl ex)
  /\ (forall ex out, go h r = go_rejects ex out -> out = [info "pm2-health is on"]).
Proof.
  unfold go, configChanged.
  destruct (cfg_get (_config h) "messageExcludeExps") as [| | | | |l|] eqn:A; simpl;
    try (split; [split; [intros (? & ? & E) | intros (? & ? & [=] & _)] | intros ? ? E];
         destruct (truthy _ && truthy _) in E; discriminate E).
  destruct (compile_all l) as [ex|rs] eqn:C; simpl.
  - split; [split; [eauto | intros _; eauto] | now intros ? ? [= _ <-]].
  - split; [split; [intros (? & ? & E) | intros (? & ? & [= <-] & E'); congruence]
           | intros ? ? E];
      destruct (truthy _ && truthy _) in E; discriminate E.
Qed.

(** X16: the exception and message handlers are attached by the flags the
    configuration has when the bus is launched. A payload fetched later
    that sets [exceptions] does change the configuration, and still no
    exception leads to an alert; one the first fetch of [go] brings does
    attach the handler. *)
Theorem flags_count_at_launch (launch : Health) (config : jsval) :
  nullish (cfg_get (_config launch) "webConfig") = false ->
  truthy (get config "exceptions") = true ->
  truthy (cfg_get (_config (fetchConfig launch (parsed config)).1) "exceptions") = true
  /\ (truthy (cfg_get (_config launch) "exceptions") = false ->
      forall data,
        bus_emit launch (fetchConfig launch (parsed config)).1 process_exception data = None)
  /\ (forall h out every, go launch (parsed config) = go_connects h out every ->
        truthy (get (cfg_get (_config launch) "webConfig") "url") = true ->
        attached h process_exception = true).
Proof.
  intros W T.
  assert (forall h0, nullish (cfg_get (_config h0) "webConfig") = false ->
            truthy (cfg_get (_config (fetchConfig h0 (parsed config)).1) "exceptions") = true)
    as E.
  { intros h0 W0. unfold cfg_get. rewrite fetchConfig_lookup by assumption.
    unfold offered. rewrite T, andb_true_r.
    rewrite bool_decide_eq_true_2; [exact T|].
    unfold CONFIG_KEYS. rewrite !elem_of_cons. tauto. }
  split; [now apply E|]. split.
  - intros F data. unfold bus_emit, attached. now rewrite F.
  - intros h out every G U. unfold go in G.
    pose proof (configChanged_config launch) as CC.
    destruct (configChanged launch) as [h0 [ex|]]; [discriminate|]. simpl in CC.
    rewrite CC in G.
    assert (truthy (cfg_get (_config launch) "webConfig") = true) as TW.
    { destruct (cfg_get (_config launch) "webConfig"); try discriminate; reflexivity. }
    rewrite TW, U in G. simpl in G. injection G as <- _ _.
    simpl. apply E. now rewrite CC.
Qed.

(** X17: a process is passed over iff its name is "pm2-health" or is an
    element of the [appsExcluded] array: the match is on the whole name,
    and an [appsExcluded] that is no array (a single name, say) excludes
    no one else. *)
Theorem exclusion_is_by_exact_name (c : gmap string jsval) (app : string) :
  (isAppExcluded c (JStr app) = true <->
     app = "pm2-health" \/ exists l, cfg_get c "appsExcluded" = JArr l /\ JStr app ∈ l)
  /\ (as_array (cfg_get c "appsExcluded") = None ->
      isAppExcluded c (JStr app) = true <-> app = "pm2-health").
Proof.
  split; [apply isAppExcluded_spec|].
  intros A. rewrite isAppExcluded_spec. split; [|auto].
  intros [E|(l & E & _)]; [exact E|]. rewrite E in A. discriminate.
Qed.

(** X18: a metric the [metric] object holds no rule of its own for never
    adds a row to the alerts. Unless its name is one that objects inherit
    from [Object.prototype], it is evaluated under the default rule
    [{noNotify: true, direct: d, noHistory: d}], [d] being true iff the
    metric itself is marked [direct: true]. *)
Theorem unconfigured_metric_silent (c : gmap string jsval) (ps : list (string * jsval))
    (e monit : jsval) (st : pass) (key : string) :
  cfg_get c "metric" = JObj ps ->
  own key ps = None ->
  alerts (probe_metric c e monit st key) = alerts st
  /\ (key ∉ Object_prototype ->
      exists d : bool,
        resolve_probe c monit key =
          JObj [("noNotify", JBool true); ("direct", JBool d); ("noHistory", JBool d)]
        /\ (d = true <-> get (get monit key) "direct" = JBool true)).
Proof.
  intros M U. split.
  - rewrite probe_metric_alerts. unfold resolve_probe. rewrite M.
    unfold member, inherited. rewrite U.
    destruct (bool_decide (key ∈ Object_prototype)); simpl.
    + destruct (coerce _ _); reflexivity.
    + destruct (coerce _ _); reflexivity.
  - intros K. eexists. split; [|apply strict_eq_true].
    unfold resolve_probe. rewrite M, member_plain by exact K.
    unfold get. rewrite U. reflexivity.
Qed.

End Extras.

(** ** The claims on concrete inputs *)

Import Node Example.

(** One pass over [app] with the rules of [thresholds]: the unconfigured
    [queue] metric is no number and is skipped, [memory] is recorded, [cpu]
    is over its target. *)
Example pass_over_app :
  effects_of (testProbes thresholds 0 (inr [app]) None) =
    [ console_error "monit [queue] is not a number";
      Mail_send
        {| subject := "1 alert(s)";
           body := AlertTable
             "<tr><td>app:3</td><td>cpu</td><td>95</td><td>undefined</td><td>90</td></tr>";
           attachements := [] |};
      info "mail send: 1 alert(s)";
      setTimeout 60000 ]
  /\ _snapshot (after_pass thresholds [app]) =
       {| recorded :=
            [ {| entry_pm_id := JNum 3; entry_name := JStr "app"; entry_key := "memory";
                 entry_history := true;
                 entry_data := {| data_v := JNum 50; data_bad := false |} |};
              {| entry_pm_id := JNum 3; entry_name := JStr "app"; entry_key := "cpu";
                 entry_history := true;
                 entry_data := {| data_v := JNum 95; data_bad := true |} |} ];
          unsent := [] |}.
Proof. split; vm_compute; reflexivity. Qed.

(** With [ifChanged], a value that stays over its target is reported by
    the first pass and not by the next. *)
Example changed_value_alerts_once :
  alerts (probe_list on_change [app]) =
    ["<tr><td>app:3</td><td>cpu</td><td>95</td><td>undefined</td><td>90</td></tr>"]
  /\ alerts (probe_list (after_pass on_change [app]) [app]) = [].
Proof. split; vm_compute; reflexivity. Qed.


(** Against C1 as stated: the rule [node_rule] is direct, and on a process
    that runs another version of Node its test comes out true and a row is
    raised. *)
Lemma direct_probe_raises_alert :
  truthy (get (resolve_probe (_config versions) (monit_of api) "node") "direct") = true
  /\ threshold (resolve_probe (_config versions) (monit_of api) "node") (JStr "v18.0.0")
     = Some true
  /\ alerts (probe_list versions [api]) =
       ["<tr><td>api:3</td><td>node</td><td>v18.0.0</td><td>undefined</td><td>v20.1.0</td></tr>"].
Proof. repeat split; vm_compute; reflexivity. Qed.

(** The rule [node_rule] on the process [api]: the version is compared as
    reported, and the row is raised. *)
Lemma direct_probe_compared_witness :
  node_rule = resolve_probe (_config versions) (monit_of api) "node"
  /\ get node_rule "exclude" <> JBool true
  /\ truthy (get node_rule "direct") = true
  /\ coerce node_rule (get (get (monit_of api) "node") "value") = Some (JStr "v18.0.0")
  /\ exists row, alerts (probe_metric (_config versions) api (monit_of api) fresh "node") = [row].
Proof.
  assert (node_rule = resolve_probe (_config versions) (monit_of api) "node") as E
    by (vm_compute; reflexivity).
  assert (get node_rule "exclude" <> JBool true) as X by (vm_compute; discriminate).
  assert (truthy (get node_rule "direct") = true) as D by reflexivity.
  destruct (direct_probe_compared (_config versions) api (monit_of api) fresh "node"
              node_rule E X D) as (C & _ & R).
  refine (conj E (conj X (conj D (conj C _)))).
  apply R. refine (conj _ (conj _ (or_introl _))).
  - vm_compute; discriminate.
  - vm_compute; reflexivity.
  - vm_compute; discriminate.
Defined.

(** Against C2 as stated: with [events] the empty list, an event that is
    not manual, of a process that is not excluded, leads to no alert. *)
Lemma empty_events_silence_all :
  cfg_get (_config silent) "events" = JArr []
  /\ truthy (get (lifecycle "api" "exit") "manually") = false
  /\ isAppExcluded (_config silent) (get (get (lifecycle "api" "exit") "process") "name") = false
  /\ on_process_event silent (lifecycle "api" "exit") = None.
Proof. repeat split; vm_compute; reflexivity. Qed.

(** With [events] naming [exit] and [restart], an [exit] leads to an alert
    and an [online] does not. *)
Lemma lifecycle_alert_iff_witness :
  truthy (get (lifecycle "api" "exit") "manually") = false
  /\ isAppExcluded (_config selective)
       (get (get (lifecycle "api" "exit") "process") "name") = false
  /\ get (lifecycle "api" "exit") "event" = JStr "exit"
  /\ is_Some (on_process_event selective (lifecycle "api" "exit"))
  /\ ~ is_Some (on_process_event selective (lifecycle "api" "online")).
Proof.
  assert (forall ev, truthy (get (lifecycle "api" ev) "manually") = false) as M by reflexivity.
  assert (forall ev, isAppExcluded (_config selective)
            (get (get (lifecycle "api" ev) "process") "name") = false) as X
    by (intros ev; vm_compute; reflexivity).
  assert (forall ev, get (lifecycle "api" ev) "event" = JStr ev) as E by reflexivity.
  refine (conj (M _) (conj (X _) (conj (E _) (conj _ _)))).
  - apply (lifecycle_alert_iff selective _ "exit" (M _) (X _) (E _)).
    vm_compute. apply elem_of_cons. now left.
  - intros S.
    apply (lifecycle_alert_iff selective _ "online" (M _) (X _) (E _)) in S.
    vm_compute in S.
    apply elem_of_cons in S as [[=]|S]. apply elem_of_cons in S as [[=]|S].
    now apply elem_of_nil in S.
Defined.

(** Against C3 as stated: on [bad_pattern] the fetch fails while the
    patterns are compiled, the error is logged, and the configuration has
    changed: the two keys of the payload are in it. *)
Lemma regexp_failure_keeps_applied_keys :
  (fetchConfig selective (parsed bad_pattern)).2 =
    [ info "fetching config from [http://localhost:8888/health.json]";
      Fetch_fetch (JStr "http://localhost:8888/health.json") None;
      info "applying [messageExcludeExps]";
      info "applying [metricIntervalS]";
      error fetch_failed (RegExpSyntaxError (JStr "(")) ]
  /\ _config selective !! "messageExcludeExps" = None
  /\ _config (fetchConfig selective (parsed bad_pattern)).1 !! "messageExcludeExps"
     = Some (JArr [JStr "("])
  /\ _config selective !! "metricIntervalS" = Some (JNum 60)
  /\ _config (fetchConfig selective (parsed bad_pattern)).1 !! "metricIntervalS"
     = Some (JNum 30).
Proof. repeat split; vm_compute; reflexivity. Qed.

(** A refused connection and a [null] payload leave the state alone; the
    pattern that does not compile leaves no compiled pattern. *)
Lemma fetchConfig_failure_witness :
  (fetchConfig selective (fetch_rejects (FetchError "ECONNREFUSED"))).1 = selective
  /\ (fetchConfig selective (parsed JNull)).1 = selective
  /\ _messageExcludeExps (fetchConfig selective (parsed bad_pattern)).1 = [].
Proof.
  destruct (fetchConfig_failure selective) as [F G].
  refine (conj _ (conj _ _)).
  - apply F. left. eauto.
  - apply F. right. eauto.
  - apply (G bad_pattern [JStr "("] (RegExpSyntaxError (JStr "("))); vm_compute; reflexivity.
Defined.

(** The [cpu] metric of [app], 95 against a target of 90, adds its row. *)
Lemma alert_row_iff_witness :
  get (resolve_probe (_config thresholds) (monit_of app) "cpu") "exclude" <> JBool true
  /\ exists row,
       alerts (probe_metric (_config thresholds) app (monit_of app) fresh "cpu")
       = alerts fresh ++ [row].
Proof.
  assert (get (resolve_probe (_config thresholds) (monit_of app) "cpu") "exclude"
          <> JBool true) as X by (vm_compute; discriminate).
  split; [exact X|].
  apply (alert_row_iff (_config thresholds) app (monit_of app) fresh "cpu" _ eq_refl X).
  split; [vm_compute; discriminate|].
  exists (JNum 95). refine (conj _ (conj _ (or_introl _))).
  - vm_compute; reflexivity.
  - vm_compute; reflexivity.
  - vm_compute; discriminate.
Defined.

(** After [hold 5] at time 0, an alert two minutes later is dropped, one
    six minutes later is sent, and so is one after [unhold]. *)
Lemma mail_hold_gate_witness :
  mail (hold selective 0 (Some 5)) 120000 greeting None = []
  /\ Mail_send greeting ∈ mail (hold selective 0 (Some 5)) 360000 greeting None
  /\ Mail_send greeting ∈ mail (unhold (hold selective 0 (Some 5))) 120000 greeting None.
Proof.
  refine (conj _ (conj _ _)).
  - apply (mail_hold_gate (hold selective 0 (Some 5)) 120000 greeting None) with 300000;
      [reflexivity | lia].
  - apply (mail_hold_gate (hold selective 0 (Some 5)) 360000 greeting None) with 300000;
      [reflexivity | lia].
  - now apply mail_hold_gate.
Defined.

(** The [queue] metric of [app] reads [n/a]: one console line, and nothing
    else. *)
Lemma nan_metric_skipped_witness :
  get (resolve_probe (_config thresholds) (monit_of app) "queue") "exclude" <> JBool true
  /\ truthy (get (resolve_probe (_config thresholds) (monit_of app) "queue") "direct") = false
  /\ PrimFloat.is_nan (Number_parseFloat (get (get (monit_of app) "queue") "value")) = true
  /\ probe_metric (_config thresholds) app (monit_of app) fresh "queue" =
       {| alerts := []; snapshot := empty_journal;
          console := ["monit [queue] is not a number"] |}.
Proof.
  assert (get (resolve_probe (_config thresholds) (monit_of app) "queue") "exclude"
          <> JBool true) as X by (vm_compute; discriminate).
  assert (truthy (get (resolve_probe (_config thresholds) (monit_of app) "queue") "direct")
          = false) as D by (vm_compute; reflexivity).
  assert (PrimFloat.is_nan (Number_parseFloat (get (get (monit_of app) "queue") "value"))
          = true) as N by (vm_compute; reflexivity).
  refine (conj X (conj D (conj N _))).
  apply (nan_metric_skipped (_config thresholds) app (monit_of app) fresh "queue" []
           _ eq_refl X D N).
Defined.

(** The payload [partial] sets [metricIntervalS]; [addLogs], falsy in it,
    and [smtp], outside the list, stay as they were. *)
Lemma fetchConfig_overwrites_exactly_witness :
  nullish (cfg_get (_config selective) "webConfig") = false
  /\ _config (fetchConfig selective (parsed partial)).1 !! "metricIntervalS" = Some (JNum 30)
  /\ _config (fetchConfig selective (parsed partial)).1 !! "addLogs" = Some (JBool true)
  /\ _config (fetchConfig selective (parsed partial)).1 !! "smtp" = Some smtp.2.
Proof.
  assert (nullish (cfg_get (_config selective) "webConfig") = false) as W
    by (vm_compute; reflexivity).
  refine (conj W (conj _ (conj _ _)));
    rewrite (fetchConfig_overwrites_exactly selective partial _ W);
    vm_compute; reflexivity.
Defined.

(** The application [batch] is in [appsExcluded]. *)
Lemma excluded_app_never_alerts_witness :
  (exists l, cfg_get (_config selective) "appsExcluded" = JArr l /\ JStr "batch" ∈ l)
  /\ on_process_event selective (lifecycle "batch" "exit") = None
  /\ on_process_exception selective (lifecycle "batch" "exit") = None
  /\ probe_process (_config selective) fresh
       (JObj [("name", JStr "batch"); ("pm_id", JNum 7);
              ("monit", JObj [("memory", JNum 1048576); ("cpu", JNum 99)])]) = fresh.
Proof.
  assert (exists l, cfg_get (_config selective) "appsExcluded" = JArr l /\ JStr "batch" ∈ l)
    as X by (exists [JStr "batch"]; split; [vm_compute; reflexivity | apply elem_of_cons; now left]).
  destruct (excluded_app_never_alerts selective "batch" (or_intror X)) as (B & P & _).
  split; [exact X|].
  destruct (B (lifecycle "batch" "exit") eq_refl) as (E1 & E2 & _).
  refine (conj E1 (conj E2 _)). now apply P.
Defined.

(** A metric called [constructor], reported with [direct: true], under an
    empty [metric] map: parsed as a number, and skipped. *)
Example inherited_name_on_node :
  console
    (probe_metric {["metric" := JObj []]} app
       (JObj [("constructor", JObj [("value", JStr "v1"); ("direct", JBool true)])])
       fresh "constructor")
  = ["monit [constructor] is not a number"].
Proof. vm_compute. reflexivity. Qed.

(** The reference engine reads the string [5] as the number 5. *)
Lemma eq_and_ne_are_not_negations_witness :
  StringToNumber "5" = 5%float
  /\ strict_eq (JNum 5) (JStr "5") = false
  /\ js_ne (JNum 5) (JStr "5") = false.
Proof.
  assert (StringToNumber "5" = 5%float) as E by (vm_compute; reflexivity).
  split; [exact E|].
  destruct (eq_and_ne_are_not_negations E) as (_ & _ & _ & _ & S & N). now split.
Defined.

(** ** The further properties on concrete inputs *)

(** A target of [high]: 95 is not over it. *)
Lemma target_not_a_number_witness :
  truthy (get worded "direct") = false
  /\ nullish (get worded "target") = false
  /\ PrimFloat.is_nan (ToNumber (get worded "target")) = true
  /\ coerce worded (JNum 95) = Some (JNum 95)
  /\ threshold worded (JNum 95) = Some false.
Proof.
  assert (truthy (get worded "direct") = false) as D by reflexivity.
  assert (nullish (get worded "target") = false) as T by reflexivity.
  assert (PrimFloat.is_nan (ToNumber (get worded "target")) = true) as N
    by (vm_compute; reflexivity).
  assert (coerce worded (JNum 95) = Some (JNum 95)) as C by (vm_compute; reflexivity).
  refine (conj D (conj T (conj N (conj C _)))).
  apply (target_not_a_number worded (JNum 95) (JNum 95) ">" D eq_refl T N C).
Defined.

(** Three fetches: the interval is the one of the last payload. *)
Lemma latest_payload_wins_witness :
  nullish (cfg_get (_config selective) "webConfig") = false
  /\ _config (fetch_all selective
                [parsed partial; fetch_rejects (FetchError "ECONNREFUSED");
                 parsed (JObj [("metricIntervalS", JNum 15)])])
       !! "metricIntervalS" = Some (JNum 15).
Proof.
  assert (nullish (cfg_get (_config selective) "webConfig") = false) as W
    by (vm_compute; reflexivity).
  split; [exact W|].
  rewrite (latest_payload_wins selective _ "metricIntervalS" W).
  vm_compute. reflexivity.
Defined.

(** [exceptions] is set in [selective]; a payload with [false] leaves it. *)
Lemma fetch_never_unsets_witness :
  truthy (cfg_get (_config selective) "exceptions") = true
  /\ truthy (cfg_get
               (_config (fetch_all selective [parsed (JObj [("exceptions", JBool false)])]))
               "exceptions") = true
  /\ _config (fetchConfig selective (parsed (JObj [("exceptions", JBool false)]))).1
       !! "exceptions" = Some (JBool true).
Proof.
  assert (truthy (cfg_get (_config selective) "exceptions") = true) as T
    by (vm_compute; reflexivity).
  destruct (fetch_never_unsets selective
              [parsed (JObj [("exceptions", JBool false)])] "exceptions" T) as [A B].
  refine (conj T (conj A _)).
  rewrite (B (JObj [("exceptions", JBool false)]) eq_refl). vm_compute. reflexivity.
Defined.

(** The payload [partial] holds one key of the list truthy. *)
Lemma fetchConfig_log_witness :
  nullish (cfg_get (_config selective) "webConfig") = false
  /\ nullish partial = false
  /\ (configChanged (with_config selective (apply_keys partial (_config selective)).1)).2
     = None
  /\ drop 2 (fetchConfig selective (parsed partial)).2 = [info "applying [metricIntervalS]"].
Proof.
  assert (nullish (cfg_get (_config selective) "webConfig") = false) as W
    by (vm_compute; reflexivity).
  assert ((configChanged (with_config selective
             (apply_keys partial (_config selective)).1)).2 = None) as C
    by (vm_compute; reflexivity).
  refine (conj W (conj eq_refl (conj C _))).
  rewrite (fetchConfig_log selective partial W eq_refl C). reflexivity.
Defined.

(** Once [secret_patterns] is fetched, [secret_message] is excluded and
    [plain_message] leads to an alert. *)
Lemma fetched_patterns_in_force_witness :
  nullish (cfg_get (_config listening) "webConfig") = false
  /\ get secret_patterns "messageExcludeExps" = JArr [JStr "secret"]
  /\ compile_all [JStr "secret"] = inr [literal "secret"]
  /\ ~ is_Some (bus_emit listening (fetchConfig listening (parsed secret_patterns)).1
                  process_msg secret_message)
  /\ is_Some (bus_emit listening (fetchConfig listening (parsed secret_patterns)).1
                process_msg plain_message).
Proof.
  assert (nullish (cfg_get (_config listening) "webConfig") = false) as W
    by (vm_compute; reflexivity).
  assert (compile_all [JStr "secret"] = inr [literal "secret"]) as C
    by (vm_compute; reflexivity).
  refine (conj W (conj eq_refl (conj C _))).
  destruct (fetched_patterns_in_force listening listening secret_patterns [JStr "secret"]
              [literal "secret"] W eq_refl C) as (_ & _ & M).
  split.
  - intros S. apply M in S as (_ & _ & F). inversion F as [|? ? T _].
    vm_compute in T. discriminate.
  - apply M. refine (conj _ (conj _ _)).
    + vm_compute. reflexivity.
    + vm_compute. reflexivity.
    + constructor; [vm_compute; reflexivity | constructor].
Defined.

(** A pattern that does not compile, fetched after [secret_patterns]:
    [secret_message] leads to an alert again. *)
Lemma failed_pattern_lifts_exclusion_witness :
  truthy (cfg_get (_config listening) "messages") = true
  /\ nullish (cfg_get (_config (fetchConfig listening (parsed secret_patterns)).1) "webConfig")
     = false
  /\ compile_all [JStr "("] = inl (RegExpSyntaxError (JStr "("))
  /\ is_Some (bus_emit listening
                (fetchConfig (fetchConfig listening (parsed secret_patterns)).1
                   (parsed bad_pattern)).1
                process_msg secret_message).
Proof.
  assert (truthy (cfg_get (_config listening) "messages") = true) as L
    by (vm_compute; reflexivity).
  assert (nullish (cfg_get (_config (fetchConfig listening (parsed secret_patterns)).1)
                     "webConfig") = false) as W by (vm_compute; reflexivity).
  assert (compile_all [JStr "("] = inl (RegExpSyntaxError (JStr "("))) as C
    by (vm_compute; reflexivity).
  refine (conj L (conj W (conj C _))).
  apply (failed_pattern_lifts_exclusion listening _ bad_pattern [JStr "("] _ secret_message
           L W eq_refl C).
  vm_compute. reflexivity.
Defined.

(** The pattern written as a string excludes nothing. *)
Lemma patterns_must_be_an_array_witness :
  as_array (cfg_get (_config pattern_as_text) "messageExcludeExps") = None
  /\ is_Some (on_process_msg (configChanged pattern_as_text).1 secret_message).
Proof.
  assert (as_array (cfg_get (_config pattern_as_text) "messageExcludeExps") = None) as A
    by (vm_compute; reflexivity).
  split; [exact A|].
  apply (patterns_must_be_an_array pattern_as_text secret_message A).
  vm_compute. reflexivity.
Defined.

(** The [cpu] metric [shadowed] reports is replaced, its [queue] is kept. *)
Lemma reported_metrics_kept_witness :
  get (get shadowed "pm2_env") "axm_monitor"
    = JObj [("cpu", JObj [("value", JStr "n/a")]); ("queue", JObj [("value", JNum 4)])]
  /\ get (get (monit_of shadowed) "cpu") "value" = JNum 95
  /\ get (get (monit_of shadowed) "queue") "value" = JNum 4.
Proof.
  destruct (reported_metrics_kept shadowed _ eq_refl) as (K & _ & V).
  refine (conj eq_refl (conj _ _)).
  - now apply V.
  - rewrite K; [reflexivity|]. unfold builtin_metrics.
    rewrite !elem_of_cons, elem_of_nil. intros [E|[E|[E|[E|[]]]]]; discriminate E.
Defined.

(** [quiet] launched without [exceptions]; the flag fetched later changes
    the configuration and attaches nothing. *)
Lemma flags_count_at_launch_witness :
  nullish (cfg_get (_config quiet) "webConfig") = false
  /\ truthy (get enable_exceptions "exceptions") = true
  /\ truthy (cfg_get (_config (fetchConfig quiet (parsed enable_exceptions)).1) "exceptions")
     = true
  /\ bus_emit quiet (fetchConfig quiet (parsed enable_exceptions)).1 process_exception
       secret_message = None.
Proof.
  assert (nullish (cfg_get (_config quiet) "webConfig") = false) as W
    by (vm_compute; reflexivity).
  destruct (flags_count_at_launch quiet enable_exceptions W eq_refl) as (T & B & _).
  refine (conj W (conj eq_refl (conj T _))).
  apply B. vm_compute. reflexivity.
Defined.

(** [memory] has no rule in [thresholds]. *)
Lemma unconfigured_metric_silent_witness :
  cfg_get (_config thresholds) "metric" =
    JObj [("cpu", JObj [("target", JNum 90); ("op", JStr ">")]);
          ("queue", JObj [("target", JNum 10); ("op", JStr ">")])]
  /\ alerts (probe_metric (_config thresholds) app (monit_of app) fresh "memory") = alerts fresh
  /\ exists d : bool,
       resolve_probe (_config thresholds) (monit_of app) "memory" =
         JObj [("noNotify", JBool true); ("direct", JBool d); ("noHistory", JBool d)].
Proof.
  assert (cfg_get (_config thresholds) "metric" =
            JObj [("cpu", JObj [("target", JNum 90); ("op", JStr ">")]);
                  ("queue", JObj [("target", JNum 10); ("op", JStr ">")])]) as M
    by (vm_compute; reflexivity).
  destruct (unconfigured_metric_silent (_config thresholds) _ app (monit_of app) fresh
              "memory" M eq_refl) as [A D].
  refine (conj M (conj A _)).
  destruct D as (d & R & _).
  - unfold Object_prototype. rewrite !elem_of_cons, elem_of_nil.
    intros K. repeat (destruct K as [K|K]; [discriminate K|]). exact K.
  - exists d. exact R.
Defined.
